(** * MegatronGPTDeployable: the Triton adapter of a Megatron GPT checkpoint

    A shallow embedding of [nemo/deploy/nlp/megatrongpt_deployable.py].

    Python values are an inductive type, exceptions are the [Raise] side of
    [pyresult], Python dictionaries are association lists in insertion order,
    and the keyword dictionaries that the entry point and its helpers pop keys
    from live in a store of dictionary objects, so that a callee's [pop] can be
    told apart from a change of the caller's dictionary.

    Floating-point rounding is not modelled: a float payload is carried as the
    rational it denotes, and the dtype tag of an array or tensor says at which
    precision it is stored. *)

From Stdlib Require Import ZArith QArith Lia.
From stdpp Require Import base option list strings gmap.

Open Scope string_scope.
Open Scope list_scope.
Open Scope Z_scope.

(** ** Exceptions *)

Inductive pyerror : Type :=
| KeyError
| IndexError
| AttributeError
| TypeError
| ValueError
| UnicodeEncodeError
| UnicodeDecodeError
| RuntimeError.

(** [KeyError] and [IndexError] are the two subclasses of [LookupError]. *)
Definition is_LookupError (e : pyerror) : bool :=
  match e with
  | KeyError | IndexError => true
  | _ => false
  end.

Inductive pyresult (A : Type) : Type :=
| Ok (a : A)
| Raise (e : pyerror).
Arguments Ok {A} a.
Arguments Raise {A} e.

Definition rbind {A B} (m : pyresult A) (f : A -> pyresult B) : pyresult B :=
  match m with
  | Ok a => f a
  | Raise e => Raise e
  end.

Declare Scope py_scope.
Delimit Scope py_scope with py.
Notation "'let?' x := m 'in' k" := (rbind m (fun x => k))
  (at level 10, x pattern, m at level 100, k at level 200) : py_scope.
Open Scope py_scope.

Definition of_option {A} (e : pyerror) (o : option A) : pyresult A :=
  match o with
  | Some a => Ok a
  | None => Raise e
  end.

Definition returns {A} (m : pyresult A) : Prop := exists a, m = Ok a.
Definition raises {A} (m : pyresult A) : Prop := exists e, m = Raise e.

(** A list comprehension whose element expression may raise: the first
    exception, in iteration order, is the one that propagates. *)
Fixpoint rmap {A B} (f : A -> pyresult B) (l : list A) : pyresult (list B) :=
  match l with
  | [] => Ok []
  | x :: xs =>
      let? y := f x in
      let? ys := rmap f xs in
      Ok (y :: ys)
  end.

(** ** Python and numpy data *)

(** A native string is a sequence of code points; a byte string is a sequence
    of octets. *)
Definition pystr := list Z.
Definition pybytes := list Z.

Inductive scalar : Type :=
| SNone
| SStr (s : pystr)
| SBytes (b : pybytes)
| SBool (b : bool)
| SFloat (x : Q)
| SInt (n : Z).

(** The numpy element types the module names ([bytes], [np.bool_],
    [np.single], [np.int_]) and those numpy infers for python payloads. *)
Inductive np_dtype : Type :=
| np_bytes
| np_bool_
| np_single
| np_int_
| np_str_
| np_half
| np_double
| np_int32
| np_uint64
| np_object.

Inductive torch_dtype : Type :=
| torch_bfloat16
| torch_float16
| torch_float32
| torch_float64
| torch_int32
| torch_int64
| torch_bool.

(** A numpy array: element type, shape, and elements in row-major order. *)
Record ndarray : Type := mk_ndarray {
  nd_dtype : np_dtype;
  nd_shape : list nat;
  nd_data : list scalar
}.

Record torch_tensor : Type := mk_tensor {
  t_dtype : torch_dtype;
  t_shape : list nat;
  t_data : list scalar
}.

#[local] Set Warnings "-register-all".

Inductive pyvalue : Type :=
| PyScalar (x : scalar)
| PyList (l : list pyvalue)
| PyTensor (t : torch_tensor)
| PyArray (a : ndarray).

Abbreviation PyNone := (PyScalar SNone).
Abbreviation PyStr s := (PyScalar (SStr s)).
Abbreviation PyBool b := (PyScalar (SBool b)).
Abbreviation PyFloat x := (PyScalar (SFloat x)).
Abbreviation PyInt n := (PyScalar (SInt n)).

(** [type(pyvalue)]: the exact class, so that [bool] is not [int]. *)
Inductive pytype : Type :=
| NoneType | py_str | py_bytes | py_bool | py_float | py_int | py_list
| py_Tensor | py_ndarray.

Global Instance pytype_eq_dec : EqDecision pytype.
Proof. solve_decision. Defined.
Global Instance np_dtype_eq_dec : EqDecision np_dtype.
Proof. solve_decision. Defined.
Global Instance torch_dtype_eq_dec : EqDecision torch_dtype.
Proof. solve_decision. Defined.
Global Instance pyerror_eq_dec : EqDecision pyerror.
Proof. solve_decision. Defined.

Definition type_of (v : pyvalue) : pytype :=
  match v with
  | PyScalar SNone => NoneType
  | PyScalar (SStr _) => py_str
  | PyScalar (SBytes _) => py_bytes
  | PyScalar (SBool _) => py_bool
  | PyScalar (SFloat _) => py_float
  | PyScalar (SInt _) => py_int
  | PyList _ => py_list
  | PyTensor _ => py_Tensor
  | PyArray _ => py_ndarray
  end.

(** [pyvalue[0]]: lists, arrays and tensors can be indexed, the rest raises
    [TypeError]; an empty sequence raises [IndexError]. *)
Definition nd_index0 (a : ndarray) : pyresult ndarray :=
  match nd_shape a with
  | [] => Raise IndexError
  | O :: _ => Raise IndexError
  | S _ :: s =>
      Ok (mk_ndarray (nd_dtype a) s (take (foldr Nat.mul 1%nat s) (nd_data a)))
  end.

Definition t_index0 (t : torch_tensor) : pyresult torch_tensor :=
  match t_shape t with
  | [] => Raise IndexError
  | O :: _ => Raise IndexError
  | S _ :: s =>
      Ok (mk_tensor (t_dtype t) s (take (foldr Nat.mul 1%nat s) (t_data t)))
  end.

Definition str_index0 (s : list Z) : pyresult (list Z) :=
  match s with
  | [] => Raise IndexError
  | c :: _ => Ok [c]
  end.

Definition py_index0 (v : pyvalue) : pyresult pyvalue :=
  match v with
  | PyList [] => Raise IndexError
  | PyList (x :: _) => Ok x
  | PyArray a => let? r := nd_index0 a in Ok (PyArray r)
  | PyTensor t => let? r := t_index0 t in Ok (PyTensor r)
  | PyScalar (SStr s) => let? r := str_index0 s in Ok (PyStr r)
  | PyScalar (SBytes b) =>
      match b with
      | [] => Raise IndexError
      | c :: _ => Ok (PyInt c)
      end
  | _ => Raise TypeError
  end.

(** [x[0]] on the numpy scalar that indexing a one-dimensional array gives:
    a bytes or str scalar is indexed as python bytes or str are, an element
    of an object array is the python object itself, and a numeric scalar
    cannot be indexed. *)
Definition scalar_index0 (d : np_dtype) (x : scalar) : pyresult pyvalue :=
  match d with
  | np_bytes | np_str_ | np_object => py_index0 (PyScalar x)
  | _ => Raise IndexError
  end.

(** [arr[0][0]]. For an array of two or more dimensions this is the first
    row's first element, a sub-array (of no dimension, a numpy scalar, when
    the array has two); for a one-dimensional array it is [x[0]] of the first
    element [x]. *)
Definition first_element (a : ndarray) : pyresult pyvalue :=
  let? row := nd_index0 a in
  match nd_shape row with
  | [] =>
      match nd_data row with
      | x :: _ => scalar_index0 (nd_dtype row) x
      | [] => Raise IndexError
      end
  | _ :: _ => let? r := nd_index0 row in Ok (PyArray r)
  end.

(** ** Dictionaries, in insertion order *)

Definition dict (V : Type) := list (string * V).

Definition dict_keys {V} (d : dict V) : list string := d.*1.

Fixpoint dict_get {V} (k : string) (d : dict V) : option V :=
  match d with
  | [] => None
  | (k', v) :: r => if decide (k' = k) then Some v else dict_get k r
  end.

Definition dict_contains {V} (k : string) (d : dict V) : bool :=
  bool_decide (is_Some (dict_get k d)).

Fixpoint dict_remove {V} (k : string) (d : dict V) : dict V :=
  match d with
  | [] => []
  | (k', v) :: r => if decide (k' = k) then r else (k', v) :: dict_remove k r
  end.

(** [d[k] = v]: an existing key keeps its position, a new one goes last. *)
Fixpoint dict_set {V} (k : string) (v : V) (d : dict V) : dict V :=
  match d with
  | [] => [(k, v)]
  | (k', v') :: r =>
      if decide (k' = k) then (k', v) :: r else (k', v') :: dict_set k v r
  end.

(** [d[k]], with [KeyError] for a key that is not there. *)
Definition dict_item {V} (k : string) (d : dict V) : pyresult V :=
  of_option KeyError (dict_get k d).

(** ** Schema helpers *)

(** [GetTensorShape]: lists are shape [-1], all others are scalars of
    shape [1]. *)
Definition GetTensorShape (pyvalue : pyvalue) : list Z :=
  [if decide (type_of pyvalue = py_list) then -1 else 1].

Definition py_to_numpy_mapping : list (pytype * np_dtype) :=
  [(py_str, np_bytes); (py_bool, np_bool_); (py_float, np_single);
   (py_int, np_int_)].

Fixpoint mapping_item (t : pytype) (m : list (pytype * np_dtype))
  : pyresult np_dtype :=
  match m with
  | [] => Raise KeyError
  | (t', d) :: r => if decide (t' = t) then Ok d else mapping_item t r
  end.

(** [GetNumpyDtype]: for lists, the type of the internal elements, read off
    the first one. *)
Definition GetNumpyDtype (pyvalue : pyvalue) : pyresult np_dtype :=
  let python_type := type_of pyvalue in
  let? python_type :=
    (if decide (python_type = py_list)
     then let? first := py_index0 pyvalue in Ok (type_of first)
     else Ok python_type) in
  mapping_item python_type py_to_numpy_mapping.


(** ** Text encoding *)

(** UTF-8 as python's [str.encode] and [bytes.decode] use it: code points are
    the scalar values [0 .. 0x10FFFF] without the surrogates [0xD800 .. 0xDFFF],
    which [encode] refuses; [decode] refuses overlong forms, surrogates and
    stray continuation bytes. *)
Definition is_scalar_value (c : Z) : bool :=
  (0 <=? c) && (c <? 1114112) && negb ((55296 <=? c) && (c <=? 57343)).

Definition utf8_encode_cp (c : Z) : pyresult pybytes :=
  if negb (is_scalar_value c) then Raise UnicodeEncodeError
  else if c <? 128 then Ok [c]
  else if c <? 2048 then Ok [192 + c / 64; 128 + c mod 64]
  else if c <? 65536 then
    Ok [224 + c / 4096; 128 + (c / 64) mod 64; 128 + c mod 64]
  else
    Ok [240 + c / 262144; 128 + (c / 4096) mod 64; 128 + (c / 64) mod 64;
        128 + c mod 64].

Fixpoint utf8_encode (s : pystr) : pyresult pybytes :=
  match s with
  | [] => Ok []
  | c :: r =>
      let? b := utf8_encode_cp c in
      let? bs := utf8_encode r in
      Ok (b ++ bs)
  end.

Definition is_continuation (b : Z) : bool := (128 <=? b) && (b <? 192).

Fixpoint utf8_decode (bs : pybytes) : pyresult pystr :=
  match bs with
  | [] => Ok []
  | b0 :: r0 =>
      if (0 <=? b0) && (b0 <? 128) then
        let? s := utf8_decode r0 in Ok (b0 :: s)
      else if (194 <=? b0) && (b0 <? 224) then
        match r0 with
        | b1 :: r1 =>
            if is_continuation b1 then
              let? s := utf8_decode r1 in
              Ok ((b0 - 192) * 64 + (b1 - 128) :: s)
            else Raise UnicodeDecodeError
        | _ => Raise UnicodeDecodeError
        end
      else if (224 <=? b0) && (b0 <? 240) then
        match r0 with
        | b1 :: b2 :: r2 =>
            let c := (b0 - 224) * 4096 + (b1 - 128) * 64 + (b2 - 128) in
            if is_continuation b1 && is_continuation b2
               && (2048 <=? c) && is_scalar_value c then
              let? s := utf8_decode r2 in Ok (c :: s)
            else Raise UnicodeDecodeError
        | _ => Raise UnicodeDecodeError
        end
      else if (240 <=? b0) && (b0 <? 245) then
        match r0 with
        | b1 :: b2 :: b3 :: r3 =>
            let c := (b0 - 240) * 262144 + (b1 - 128) * 4096
                     + (b2 - 128) * 64 + (b3 - 128) in
            if is_continuation b1 && is_continuation b2 && is_continuation b3
               && (65536 <=? c) && is_scalar_value c then
              let? s := utf8_decode r3 in Ok (c :: s)
            else Raise UnicodeDecodeError
        | _ => Raise UnicodeDecodeError
        end
      else Raise UnicodeDecodeError
  end.

Definition is_ascii (s : list Z) : bool :=
  forallb (fun c => (0 <=? c) && (c <? 128)) s.

(** ** numpy *)

Definition size_of (shape : list nat) : nat := foldr Nat.mul 1%nat shape.

(** The element type numpy infers for one python payload: an int that fits
    64 signed bits is [np.int_], a larger one that fits 64 unsigned bits is
    [uint64], and any other int stays a python object. *)
Definition infer_dtype (x : scalar) : np_dtype :=
  match x with
  | SNone => np_object
  | SStr _ => np_str_
  | SBytes _ => np_bytes
  | SBool _ => np_bool_
  | SFloat _ => np_double
  | SInt n =>
      if (- 9223372036854775808 <=? n) && (n <? 9223372036854775808)
      then np_int_
      else if (0 <=? n) && (n <? 18446744073709551616) then np_uint64
      else np_object
  end.

Definition dtype_rank (d : np_dtype) : option nat :=
  match d with
  | np_bool_ => Some 0%nat
  | np_int32 => Some 1%nat
  | np_int_ => Some 2%nat
  | np_uint64 => Some 3%nat
  | np_half => Some 4%nat
  | np_single => Some 5%nat
  | np_double => Some 6%nat
  | _ => None
  end.

Definition is_int_dtype (d : np_dtype) : bool :=
  bool_decide (d = np_int32 \/ d = np_int_ \/ d = np_uint64).

Definition is_signed_int_dtype (d : np_dtype) : bool :=
  bool_decide (d = np_int32 \/ d = np_int_).

Definition is_short_float_dtype (d : np_dtype) : bool :=
  bool_decide (d = np_half \/ d = np_single).

(** The common element type of two arrays put into one: the type itself when
    both agree, double precision for an integer type with a float type that
    cannot hold it and for a signed integer type with [uint64], otherwise
    the wider of two numeric types, and [object]
    when one of them is not numeric (numpy would turn a mix of text and
    numbers into text). *)
Definition dtype_join (d1 d2 : np_dtype) : np_dtype :=
  if decide (d1 = d2) then d1
  else if (is_int_dtype d1 && is_short_float_dtype d2)
          || (is_int_dtype d2 && is_short_float_dtype d1)
          || (is_signed_int_dtype d1 && bool_decide (d2 = np_uint64))
          || (is_signed_int_dtype d2 && bool_decide (d1 = np_uint64))
       then np_double
  else match dtype_rank d1, dtype_rank d2 with
       | Some r1, Some r2 => if decide (r1 <= r2)%nat then d2 else d1
       | _, _ => np_object
       end.

(** Element conversion of [astype] and of filling with [dtype=...]. Numbers
    keep their value between numeric types, a float truncates to an integer,
    text converts to and from byte strings in ASCII. Parsing numerals out of
    text and printing numbers into text are not modelled: the former raises
    [ValueError] as it does for text that is no numeral, the latter keeps the
    payload. *)
Definition astype_scalar (d : np_dtype) (x : scalar) : pyresult scalar :=
  match d with
  | np_object => Ok x
  | np_bytes =>
      match x with
      | SStr s => if is_ascii s then Ok (SBytes s) else Raise UnicodeEncodeError
      | _ => Ok x
      end
  | np_str_ =>
      match x with
      | SBytes b => if is_ascii b then Ok (SStr b) else Raise UnicodeDecodeError
      | _ => Ok x
      end
  | np_bool_ =>
      match x with
      | SNone => Ok (SBool false)
      | SStr s | SBytes s => Ok (SBool (negb (bool_decide (s = []))))
      | SBool b => Ok (SBool b)
      | SFloat q => Ok (SBool (negb (Qeq_bool q 0)))
      | SInt n => Ok (SBool (negb (n =? 0)))
      end
  | np_int_ | np_int32 | np_uint64 =>
      match x with
      | SNone => Raise TypeError
      | SStr _ | SBytes _ => Raise ValueError
      | SBool b => Ok (SInt (if b then 1 else 0))
      | SFloat q => Ok (SInt (Z.quot (Qnum q) (Z.pos (Qden q))))
      | SInt n => Ok (SInt n)
      end
  | np_half | np_single | np_double =>
      match x with
      | SNone => Raise TypeError
      | SStr _ | SBytes _ => Raise ValueError
      | SBool b => Ok (SFloat (if b then 1 else 0))
      | SFloat q => Ok (SFloat q)
      | SInt n => Ok (SFloat (inject_Z n))
      end
  end.

(** [arr.astype(dtype)]. *)
Definition nd_astype (d : np_dtype) (a : ndarray) : pyresult ndarray :=
  let? data := rmap (astype_scalar d) (nd_data a) in
  Ok (mk_ndarray d (nd_shape a) data).

(** ** torch *)

(** [tensor.cpu()]: devices are not modelled. *)
Definition tensor_cpu (t : torch_tensor) : torch_tensor := t.

(** [tensor.float()]: the same values as [torch.float32]. *)
Definition tensor_float (t : torch_tensor) : torch_tensor :=
  mk_tensor torch_float32 (t_shape t) (t_data t).

(** [tensor.numpy()]: numpy has no bfloat16, and torch raises [TypeError]
    for it. *)
Definition numpy_dtype_of (d : torch_dtype) : pyresult np_dtype :=
  match d with
  | torch_bfloat16 => Raise TypeError
  | torch_float16 => Ok np_half
  | torch_float32 => Ok np_single
  | torch_float64 => Ok np_double
  | torch_int32 => Ok np_int32
  | torch_int64 => Ok np_int_
  | torch_bool => Ok np_bool_
  end.

Definition tensor_numpy (t : torch_tensor) : pyresult ndarray :=
  let? d := numpy_dtype_of (t_dtype t) in
  Ok (mk_ndarray d (t_shape t) (t_data t)).

(** [np.array] of a list of arrays: all must have one shape; the result has
    one more leading dimension and the common element type. *)
Definition np_stack (arrs : list ndarray) : pyresult ndarray :=
  match arrs with
  | [] => Ok (mk_ndarray np_double [0%nat] [])
  | a :: r =>
      if forallb (fun b => bool_decide (nd_shape b = nd_shape a)) r then
        let d := foldl dtype_join (nd_dtype a) (nd_dtype <$> r) in
        let? data := rmap (astype_scalar d) (mjoin (nd_data <$> arrs)) in
        Ok (mk_ndarray d (length arrs :: nd_shape a) data)
      else Raise ValueError
  end.

(** [np.array(value)] / [np.asarray(value)]. *)
Fixpoint np_array (v : pyvalue) : pyresult ndarray :=
  match v with
  | PyScalar x => Ok (mk_ndarray (infer_dtype x) [] [x])
  | PyArray a => Ok a
  | PyTensor t => tensor_numpy t
  | PyList l => let? arrs := rmap np_array l in np_stack arrs
  end.

(** [np.shape(value)]. *)
Definition np_shape (v : pyvalue) : pyresult (list nat) :=
  let? a := np_array v in Ok (nd_shape a).

Fixpoint chunks {A} (k n : nat) (l : list A) : list (list A) :=
  match n with
  | O => []
  | S n' => take k l :: chunks k n' (drop k l)
  end.

(** Broadcasting the elements [fd] of an array of shape [fs] to the shape
    [s]: shapes are aligned at the right, and a dimension of the source is
    either the target's or [1]. *)
Fixpoint broadcast_data {A} (s fs : list nat) (fd : list A)
  : option (list A) :=
  match s with
  | [] => match fs with [] => Some fd | _ => None end
  | n :: s' =>
      if decide (length fs <= length s')%nat then
        r ← broadcast_data s' fs fd; Some (mjoin (replicate n r))
      else
        match fs with
        | [] => None
        | m :: fs' =>
            if decide (m = n) then
              rs ← mapM (broadcast_data s' fs') (chunks (size_of fs') n fd);
              Some (mjoin rs)
            else if decide (m = 1%nat) then
              r ← broadcast_data s' fs' fd; Some (mjoin (replicate n r))
            else None
        end
  end.

(** Copying into an array strips unit dimensions off the left of a source
    that has more dimensions than the target. *)
Fixpoint strip_leading_ones (ndim : nat) (fs : list nat) : list nat :=
  match fs with
  | 1%nat :: r =>
      if decide (ndim < length fs)%nat then strip_leading_ones ndim r else fs
  | _ => fs
  end.

(** [np.full(shape, fill_value, dtype=dtype)]. *)
Definition np_full (shape : list nat) (fill_value : pyvalue) (dtype : np_dtype)
  : pyresult ndarray :=
  let? f := np_array fill_value in
  let? data :=
    of_option ValueError
      (broadcast_data shape (strip_leading_ones (length shape) (nd_shape f))
         (nd_data f)) in
  let? data := rmap (astype_scalar dtype) data in
  Ok (mk_ndarray dtype shape data).

(** ** nemo.deploy.utils *)

(** Modelled from the spec: the cast of one element from native text to its
    byte-string encoding, UTF-8; what is not text cannot be encoded. *)
Definition encode_element (x : scalar) : pyresult scalar :=
  match x with
  | SStr s => let? b := utf8_encode s in Ok (SBytes b)
  | _ => Raise TypeError
  end.

(** Modelled from the spec: the decoding of one element into a native string;
    an element that is text already goes through [bytes] first. *)
Definition decode_element (x : scalar) : pyresult pystr :=
  match x with
  | SBytes b => utf8_decode b
  | SStr s => if is_ascii s then Ok s else Raise UnicodeEncodeError
  | _ => Raise TypeError
  end.

(** Modelled from the spec: [cast_output] of [nemo/deploy/utils.py] is not
    part of the module. For a byte-string target it casts every element from
    native text to byte-string encoding, which an array that is not one of
    native text does not allow (so neither does the array of an empty list,
    which numpy makes of floats); for a numeric target it casts the elements
    to the declared numeric type. *)
Definition cast_output (data : pyvalue) (required_dtype : np_dtype)
  : pyresult ndarray :=
  let? a := np_array data in
  if decide (required_dtype = np_bytes) then
    if decide (nd_dtype a = np_str_) then
      let? bs := rmap encode_element (nd_data a) in
      Ok (mk_ndarray np_bytes (nd_shape a) bs)
    else Raise TypeError
  else nd_astype required_dtype a.

(** Modelled from the spec: [str_ndarray2list] of [nemo/deploy/utils.py] is
    not part of the module. It decodes an array of byte strings into a
    sequence of native strings. *)
Definition str_ndarray2list (str_ndarray : ndarray) : pyresult (list pystr) :=
  rmap decode_element (nd_data str_ndarray).

(** ** Schema *)

(** The serving runtime's tensor descriptor; [optional] is [False] unless
    given. *)
Record Tensor : Type := mk_Tensor {
  name : string;
  shape : list Z;
  dtype : np_dtype;
  optional : bool
}.

Definition _INPUT_PARAMETER_FIELDS : dict (Z * np_dtype * bool) :=
  [("prompts", (-1, np_bytes, false))].

Definition _BLANK_OUTPUTTYPE : dict pyvalue :=
  [("sentences", PyList [PyStr []]);
   ("tokens", PyList [PyList [PyStr []]]);
   ("logprob", PyList [PyList [PyFloat 0]]);
   ("full_logprob", PyList [PyList [PyFloat 0]]);
   ("token_ids", PyList [PyList [PyInt 0]]);
   ("offsets", PyList [PyList [PyInt 0]])].

(** One optional descriptor per entry of a default parameter dictionary. *)
Definition parameter_tensor (item : string * pyvalue) : pyresult Tensor :=
  let '(parameter_name, parameter_value) := item in
  let? d := GetNumpyDtype parameter_value in
  Ok (mk_Tensor parameter_name (GetTensorShape parameter_value) d true).

Definition get_triton_output : pyresult (list Tensor) :=
  rmap (fun item : string * pyvalue =>
          let '(parameter_name, parameter_value) := item in
          let? first := py_index0 parameter_value in
          let? d := GetNumpyDtype first in
          Ok (mk_Tensor parameter_name (GetTensorShape parameter_value) d
                false))
       _BLANK_OUTPUTTYPE.

(** ** The store of keyword dictionaries *)

(** A request batch is a dictionary from input name to array. The
    dictionaries that are popped from are objects in a store; a computation
    threads the store and may raise. *)
Abbreviation loc := nat (only parsing).

Definition M (A : Type) : Type :=
  gmap nat (dict ndarray) -> pyresult A * gmap nat (dict ndarray).

Definition sret {A} (a : A) : M A := fun h => (Ok a, h).

(** An exception leaves the store as it was when it was raised. *)
Definition sbind {A B} (m : M A) (f : A -> M B) : M B :=
  fun h =>
    match m h with
    | (Ok a, h') => f a h'
    | (Raise e, h') => (Raise e, h')
    end.

Definition lift {A} (r : pyresult A) : M A := fun h => (r, h).

Notation "'let*' x := m 'in' k" := (sbind m (fun x => k))
  (at level 10, x pattern, m at level 100, k at level 200) : py_scope.

(** A function that takes [**inputs] binds [inputs] to a new dictionary
    holding the keyword arguments. *)
Definition new_dict (kwargs : dict ndarray) : M loc :=
  fun h => let l := fresh (dom h) in (Ok l, <[l := kwargs]> h).

Definition read_dict (l : loc) : M (dict ndarray) :=
  fun h => match h !! l with
           | Some d => (Ok d, h)
           | None => (Raise RuntimeError, h)
           end.

(** [field in inputs]. *)
Definition obj_contains (l : loc) (k : string) : M bool :=
  let* d := read_dict l in sret (dict_contains k d).

(** [inputs.pop(field)]: removes the key from the object at [l]. *)
Definition obj_pop (l : loc) (k : string) : M ndarray :=
  fun h => match h !! l with
           | Some d =>
               match dict_get k d with
               | Some v => (Ok v, <[l := dict_remove k d]> h)
               | None => (Raise KeyError, h)
               end
           | None => (Raise RuntimeError, h)
           end.

(** A call that splats [inputs] into keyword arguments: the callee receives
    the items of the caller's dictionary, not the dictionary. *)
Definition call_with_kwargs {A} (f : dict ndarray -> M A) (inputs : loc) : M A :=
  let* kwargs := read_dict inputs in f kwargs.

Fixpoint for_each {A S} (body : S -> A -> M S) (l : list A) (s : S) : M S :=
  match l with
  | [] => sret s
  | x :: r => let* s' := body s x in for_each body r s'
  end.

(** ** The model and the deployable instance *)

(** The configuration of a checkpoint, with the two fields the loader
    assigns; an assignment stores the value. *)
Record model_config : Type := mk_config {
  transformer_engine : bool;
  tensor_model_parallel_size : Z;
  precision : string
}.

Record Trainer : Type := mk_Trainer {
  accelerator : string;
  trainer_precision : string;
  devices : Z;
  num_nodes : Z
}.

(** [MegatronGPTModel]: what the adapter uses of it. [generate] takes the
    prompts, the length parameters and the sampling parameters, and returns a
    dictionary of the [OutputType] fields. *)
Record MegatronGPTModel : Type := mk_model {
  generate :
    list pystr -> dict pyvalue -> dict pyvalue -> pyresult (dict pyvalue);
  cfg : model_config;
  training : bool
}.

(** What [model.eval()] leaves when it returns: the model, no longer in
    training mode. *)
Definition model_eval (m : MegatronGPTModel) : MegatronGPTModel :=
  mk_model (generate m) (cfg m) false.

(** [model] is [None] while the instance has no [model] attribute. *)
Record MegatronGPTDeployable : Type := mk_deployable {
  nemo_checkpoint_filepath : string;
  model : option MegatronGPTModel
}.

(** [self.model = m]. *)
Definition with_model (self : MegatronGPTDeployable) (m : MegatronGPTModel)
  : MegatronGPTDeployable :=
  mk_deployable (nemo_checkpoint_filepath self) (Some m).

(** [self.model]. *)
Definition get_model (self : MegatronGPTDeployable) : pyresult MegatronGPTModel :=
  of_option AttributeError (model self).

Definition is_None (v : pyvalue) : bool :=
  match v with
  | PyScalar SNone => true
  | _ => false
  end.

(** [for x in value]. *)
Definition py_iter (v : pyvalue) : pyresult (list pyvalue) :=
  match v with
  | PyList l => Ok l
  | PyTensor t =>
      match t_shape t with
      | [] => Raise TypeError
      | n :: s =>
          Ok ((fun d => PyTensor (mk_tensor (t_dtype t) s d))
                <$> chunks (size_of s) n (t_data t))
      end
  | PyArray a =>
      match nd_shape a with
      | [] => Raise TypeError
      | n :: s =>
          Ok ((fun d => PyArray (mk_ndarray (nd_dtype a) s d))
                <$> chunks (size_of s) n (nd_data a))
      end
  | PyScalar (SStr s) => Ok ((fun c => PyStr [c]) <$> s)
  | PyScalar (SBytes b) => Ok ((fun c => PyInt c) <$> b)
  | _ => Raise TypeError
  end.

(** [tensor.cpu().float().numpy()]; only tensors have [cpu]. *)
Definition upcast_to_numpy (tensor : pyvalue) : pyresult ndarray :=
  match tensor with
  | PyTensor t => tensor_numpy (tensor_float (tensor_cpu t))
  | _ => Raise AttributeError
  end.

(** [MegatronGPTDeployable._BLANK_OUTPUTTYPE[model_output_field][0]]. *)
Definition blank_of (model_output_field : string) : pyresult pyvalue :=
  let? blank := dict_item model_output_field _BLANK_OUTPUTTYPE in
  py_index0 blank.

(** The element type the schema declares for a field of the output. *)
Definition schema_dtype (model_output_field : string) : pyresult np_dtype :=
  let? blank0 := blank_of model_output_field in GetNumpyDtype blank0.

(** The body of the loop over the model's result: the array for one field. *)
Definition output_tensor (model_output : dict pyvalue)
    (model_output_field : string) (value : pyvalue) : pyresult ndarray :=
  let? field_dtype := schema_dtype model_output_field in
  if is_None value then
    let? sentences := dict_item "sentences" model_output in
    let? shp := np_shape sentences in
    let? fill_value := blank_of model_output_field in
    np_full shp fill_value field_dtype
  else if decide (field_dtype = np_bytes) then
    cast_output value field_dtype
  else
    let? first := py_index0 value in
    match first with
    | PyTensor t0 =>
        if decide (t_dtype t0 = torch_bfloat16) then
          let? tensors := py_iter value in
          let? arrs := rmap upcast_to_numpy tensors in
          np_stack arrs
        else
          let? entries := py_iter value in
          let? arrs := rmap (fun entry => cast_output entry field_dtype) entries in
          np_stack arrs
    | _ => np_array value
    end.

Fixpoint fill_outputs (model_output : dict pyvalue)
    (items : list (string * pyvalue)) (triton_output : dict ndarray)
  : pyresult (dict ndarray) :=
  match items with
  | [] => Ok triton_output
  | (model_output_field, value) :: rest =>
      let? a := output_tensor model_output model_output_field value in
      fill_outputs model_output rest (dict_set model_output_field a triton_output)
  end.

Section Deployable.

(** The default providers of
    [nemo.collections.nlp.modules.common.text_generation_utils] are not part
    of the module: each call returns a new dictionary with these items. *)
Variable get_default_sampling_params : dict pyvalue.
Variable get_default_length_params : dict pyvalue.

(** The file system and the model runtime, each of whose calls may raise:
    [Path(...).exists()], the construction of the strategy and of the trainer
    for an accelerator, a precision, a number of devices and of nodes, the
    two restorations of the checkpoint, and [model.eval()]. *)
Variable path_exists : string -> pyresult bool.
Variable new_Trainer : string -> string -> Z -> Z -> pyresult Trainer.
Variable restore_config : string -> Trainer -> pyresult model_config.
Variable restore_from :
  string -> Trainer -> model_config -> pyresult MegatronGPTModel.
Variable eval : MegatronGPTModel -> pyresult MegatronGPTModel.

Definition _load (self : MegatronGPTDeployable)
    (nemo_checkpoint_filepath : string) (num_devices num_nodes : Z)
  : pyresult MegatronGPTDeployable :=
  let? present := path_exists nemo_checkpoint_filepath in
  if (present : bool) then
    let? trainer := new_Trainer "gpu" "bf16" num_devices num_nodes in
    let? custom_config := restore_config nemo_checkpoint_filepath trainer in
    let custom_config :=
      mk_config true (tensor_model_parallel_size custom_config)
        (precision custom_config) in
    let custom_config :=
      mk_config (transformer_engine custom_config) num_devices
        (precision custom_config) in
    let? m := restore_from nemo_checkpoint_filepath trainer custom_config in
    let self := with_model self m in
    let? m := eval m in
    Ok (with_model self m)
  else Ok self.

(** [__init__]; [num_devices] and [num_nodes] default to [1]. *)
Definition __init__ (nemo_checkpoint_filepath : string)
    (num_devices num_nodes : Z) : pyresult MegatronGPTDeployable :=
  _load (mk_deployable nemo_checkpoint_filepath None)
    nemo_checkpoint_filepath num_devices num_nodes.

Definition get_triton_input : pyresult (list Tensor) :=
  let input_parameters :=
    (fun item : string * (Z * np_dtype * bool) =>
       let '(name, (shape, dtype, optional)) := item in
       mk_Tensor name [shape] dtype optional)
      <$> _INPUT_PARAMETER_FIELDS in
  let? sampling_parameters :=
    rmap parameter_tensor get_default_sampling_params in
  let? length_parameters :=
    rmap parameter_tensor get_default_length_params in
  Ok (input_parameters ++ sampling_parameters ++ length_parameters).

(** One turn of the extraction loops:
    [if field in inputs: params[field] = inputs.pop(field)[0][0]]. *)
Definition override_from (inputs : loc) (params : dict pyvalue)
    (field : string) : M (dict pyvalue) :=
  let* present := obj_contains inputs field in
  if present then
    let* a := obj_pop inputs field in
    let* v := lift (first_element a) in
    sret (dict_set field v params)
  else sret params.

Definition _sampling_params_from_triton_inputs (kwargs : dict ndarray)
  : M (dict pyvalue) :=
  let* inputs := new_dict kwargs in
  let sampling_params := get_default_sampling_params in
  for_each (override_from inputs) (dict_keys sampling_params) sampling_params.

Definition _length_params_from_triton_inputs (kwargs : dict ndarray)
  : M (dict pyvalue) :=
  let* inputs := new_dict kwargs in
  let length_params := get_default_length_params in
  for_each (override_from inputs) (dict_keys length_params) length_params.

(** The first three statements of [triton_infer_fn], on the entry point's
    own dictionary [inputs]. *)
Definition marshal_inputs (inputs : loc)
  : M (list pystr * dict pyvalue * dict pyvalue) :=
  let* prompts := obj_pop inputs "prompts" in
  let* input_strings := lift (str_ndarray2list prompts) in
  let* sampling_params :=
    call_with_kwargs _sampling_params_from_triton_inputs inputs in
  let* length_params :=
    call_with_kwargs _length_params_from_triton_inputs inputs in
  sret (input_strings, sampling_params, length_params).

(** [triton_infer_fn], as the serving runtime's [batch] decorator (or the
    module's no-op replacement of it) calls it. *)
Definition triton_infer_fn (self : MegatronGPTDeployable)
    (kwargs : dict ndarray) : M (dict ndarray) :=
  let* inputs := new_dict kwargs in
  let* marshalled := marshal_inputs inputs in
  let '(input_strings, sampling_params, length_params) := marshalled in
  let* m := lift (get_model self) in
  let* model_output :=
    lift (generate m input_strings length_params sampling_params) in
  let num_prompts := length input_strings in
  let triton_output := [] in
  lift (fill_outputs model_output model_output triton_output).

End Deployable.

(** ** Reference descriptions and sample data *)

(** The values a default parameter dictionary can hold for schema derivation
    to go through: a [str], [bool], [float] or [int], or a list that starts
    with one. *)
Definition is_py_scalar (v : pyvalue) : bool :=
  bool_decide (type_of v ∈ [py_str; py_bool; py_float; py_int]).

Definition is_string_list (v : pyvalue) : bool :=
  match v with
  | PyList l => forallb (fun x => bool_decide (type_of x = py_str)) l
  | _ => false
  end.

Definition is_nonempty_list (v : pyvalue) : bool :=
  match v with
  | PyList (_ :: _) => true
  | _ => false
  end.

Definition scalar_or_string_list (v : pyvalue) : bool :=
  is_py_scalar v || is_string_list v.

Definition scalar_or_nonempty_string_list (v : pyvalue) : bool :=
  is_py_scalar v || (is_string_list v && is_nonempty_list v).

(** The descriptor the schema is expected to hold for one default entry. *)
Definition expected_dtype (v : pyvalue) : np_dtype :=
  match v with
  | PyScalar (SStr _) | PyList (PyScalar (SStr _) :: _) => np_bytes
  | PyScalar (SBool _) => np_bool_
  | PyScalar (SFloat _) => np_single
  | PyScalar (SInt _) => np_int_
  | _ => np_object
  end.

Definition expected_tensor (item : string * pyvalue) : Tensor :=
  mk_Tensor item.1
    (match item.2 with PyList _ => [-1] | _ => [1] end)
    (expected_dtype item.2) true.

Definition prompts_tensor : Tensor := mk_Tensor "prompts" [-1] np_bytes false.

(** The output schema: for each field its element type and the placeholder
    value a missing result is filled with. *)
Definition placeholder (field : string) : option (np_dtype * scalar) :=
  if decide (field = "sentences") then Some (np_bytes, SBytes [])
  else if decide (field = "tokens") then Some (np_bytes, SBytes [])
  else if decide (field = "logprob") then Some (np_single, SFloat 0)
  else if decide (field = "full_logprob") then Some (np_single, SFloat 0)
  else if decide (field = "token_ids") then Some (np_int_, SInt 0)
  else if decide (field = "offsets") then Some (np_int_, SInt 0)
  else None.

Definition output_schema_keys : list string :=
  ["sentences"; "tokens"; "logprob"; "full_logprob"; "token_ids"; "offsets"].

(** The first row's first element of a batch tensor, in the words of the
    policy: the first row is the part of the tensor that belongs to the first
    request, and its first element is the leading part of that row; for a
    tensor of shape [(B, n)] it is the first datum. A tensor of fewer than two
    dimensions, without rows or with empty rows, has none. *)
Definition first_row_first_element (a : ndarray) : option pyvalue :=
  match nd_shape a with
  | S _ :: S _ :: s =>
      Some (PyArray (mk_ndarray (nd_dtype a) s (take (size_of s) (nd_data a))))
  | _ => None
  end.

(** What a parameter dictionary is expected to hold under [k] after
    extraction, when the default is [v]. *)
Definition overridden (kwargs : dict ndarray) (k : string) (v : pyvalue)
    (r : pyvalue) : Prop :=
  match dict_get k kwargs with
  | Some a => first_row_first_element a = Some r
  | None => r = v
  end.

(** Every tensor of the batch that a parameter dictionary names has a first
    row with a first element. *)
Definition has_first_rows (defaults : dict pyvalue)
    (kwargs : dict ndarray) : Prop :=
  forall k a, k ∈ dict_keys defaults -> dict_get k kwargs = Some a ->
              is_Some (first_row_first_element a).

(** The result of [generate] is keyed by the names of the output schema, as
    its [OutputType] declares: a dictionary with exactly these keys. *)
Definition keyed_by_schema (model_output : dict pyvalue) : Prop :=
  NoDup (dict_keys model_output) /\
  forall k, k ∈ dict_keys model_output <-> k ∈ output_schema_keys.

(** A model that keeps to the declared type of its result. *)
Definition generates_OutputType (m : MegatronGPTModel) : Prop :=
  forall inputs length_params sampling_params model_output,
    generate m inputs length_params sampling_params = Ok model_output ->
    keyed_by_schema model_output.

(** What extraction leaves under [k] in terms of the code's [[0][0]]. *)
Definition extracted (kwargs : dict ndarray) (k : string) (v : pyvalue)
    (r : pyvalue) : Prop :=
  match dict_get k kwargs with
  | Some a => first_element a = Ok r
  | None => r = v
  end.

(** [[0][0]] returns for every tensor of the batch that a parameter dictionary
    names. *)
Definition has_first_elements (defaults : dict pyvalue)
    (kwargs : dict ndarray) : Prop :=
  forall k a, k ∈ dict_keys defaults -> dict_get k kwargs = Some a ->
              returns (first_element a).

Definition codepoints (s : string) : pystr :=
  (fun c => Z.of_nat (Ascii.nat_of_ascii c)) <$> String.list_ascii_of_string s.

Definition sample_sampling_params : dict pyvalue :=
  [("use_greedy", PyBool true);
   ("temperature", PyFloat 1);
   ("top_k", PyInt 0);
   ("top_p", PyFloat 1);
   ("repetition_penalty", PyFloat 1);
   ("add_BOS", PyBool true);
   ("all_probs", PyBool false);
   ("compute_logprob", PyBool false);
   ("end_strings", PyList [PyStr (codepoints "<|endoftext|>")])].

Definition sample_length_params : dict pyvalue :=
  [("min_length", PyInt 0); ("max_length", PyInt 30)].

(** A batch of one request: the prompt [Hello] and a temperature. *)
Definition sample_prompts : ndarray :=
  mk_ndarray np_bytes [1%nat; 1%nat] [SBytes (codepoints "Hello")].

Definition sample_temperature : ndarray :=
  mk_ndarray np_single [1%nat; 1%nat] [SFloat (7 # 10)].

Definition sample_batch : dict ndarray :=
  [("prompts", sample_prompts); ("temperature", sample_temperature);
   ("max_length", mk_ndarray np_int_ [1%nat; 1%nat] [SInt 8]);
   ("request_id", mk_ndarray np_int_ [1%nat; 1%nat] [SInt 42])].

(** A batch of two requests with different temperatures. *)
Definition two_request_batch : dict ndarray :=
  [("prompts",
    mk_ndarray np_bytes [2%nat; 1%nat]
      [SBytes (codepoints "Hello"); SBytes (codepoints "World")]);
   ("temperature",
    mk_ndarray np_single [2%nat; 1%nat] [SFloat (7 # 10); SFloat (9 # 10)]);
   ("request_id", mk_ndarray np_int_ [2%nat; 1%nat] [SInt 42; SInt 43])].

(** A batch whose [end_strings] row is empty. *)
Definition empty_row_batch : dict ndarray :=
  [("prompts", sample_prompts);
   ("end_strings", mk_ndarray np_bytes [1%nat; 0%nat] [])].

Definition sample_bf16 : torch_tensor :=
  mk_tensor torch_bfloat16 [2%nat] [SFloat (-1 # 2); SFloat (-2)].

(** A model whose result has all six fields, two of them [None]. *)
Definition sample_output (inputs : list pystr) : dict pyvalue :=
  [("sentences", PyList (PyScalar ∘ SStr <$> inputs));
   ("tokens", PyList ((fun s => PyList [PyStr s]) <$> inputs));
   ("logprob", PyList ((fun _ => PyTensor sample_bf16) <$> inputs));
   ("full_logprob", PyNone);
   ("token_ids", PyList ((fun _ => PyList [PyInt 1; PyInt 2]) <$> inputs));
   ("offsets", PyNone)].

Definition sample_model : MegatronGPTModel :=
  mk_model (fun inputs _ _ => Ok (sample_output inputs))
    (mk_config true 1 "bf16") false.

(** A model whose result has the generated text only. *)
Definition sentences_only_model : MegatronGPTModel :=
  mk_model
    (fun inputs _ _ => Ok [("sentences", PyList (PyScalar ∘ SStr <$> inputs))])
    (mk_config true 1 "bf16") false.

Definition loaded (m : MegatronGPTModel) : MegatronGPTDeployable :=
  mk_deployable "model.nemo" (Some m).

Definition unloaded : MegatronGPTDeployable :=
  mk_deployable "missing.nemo" None.

(** Extraction as a function of the batch alone: what the loops compute when
    the store is left out. *)
Fixpoint override_all (kwargs : dict ndarray) (ks : list string)
    (params : dict pyvalue) : pyresult (dict pyvalue) :=
  match ks with
  | [] => Ok params
  | k :: r =>
      match dict_get k kwargs with
      | Some a =>
          let? e := first_element a in
          override_all (dict_remove k kwargs) r (dict_set k e params)
      | None => override_all kwargs r params
      end
  end.

Definition extract_params (defaults : dict pyvalue) (kwargs : dict ndarray)
  : pyresult (dict pyvalue) :=
  override_all kwargs (dict_keys defaults) defaults.

(** The array numpy makes of one native string. *)
Definition string_cell (s : pystr) : ndarray := mk_ndarray np_str_ [] [SStr s].

(** The entry point as a function of the request alone. *)
Definition infer (sampling length : dict pyvalue)
    (self : MegatronGPTDeployable) (kwargs : dict ndarray)
  : pyresult (dict ndarray) :=
  let? prompts := dict_item "prompts" kwargs in
  let? input_strings := str_ndarray2list prompts in
  let? sp := extract_params sampling (dict_remove "prompts" kwargs) in
  let? lp := extract_params length (dict_remove "prompts" kwargs) in
  let? m := get_model self in
  let? model_output := generate m input_strings lp sp in
  fill_outputs model_output model_output [].

(** The request gets as far as the call of the model: it has prompts, they
    decode, and both parameter dictionaries can be extracted. *)
Definition request_marshals (sampling length : dict pyvalue)
    (kwargs : dict ndarray) : Prop :=
  exists prompts input_strings sp lp,
    dict_get "prompts" kwargs = Some prompts /\
    str_ndarray2list prompts = Ok input_strings /\
    extract_params sampling (dict_remove "prompts" kwargs) = Ok sp /\
    extract_params length (dict_remove "prompts" kwargs) = Ok lp.

(** A value whose element type [GetNumpyDtype] can derive: a [str], [bool],
    [float] or [int], or a list whose first element is one. *)
Definition has_numpy_dtype (v : pyvalue) : bool :=
  match v with
  | PyList (x :: _) => is_py_scalar x
  | PyList [] => false
  | _ => is_py_scalar v
  end.

(** One item of the response: the field with its array. *)
Definition output_item (model_output : dict pyvalue)
    (item : string * pyvalue) : pyresult (string * ndarray) :=
  let? a := output_tensor model_output item.1 item.2 in Ok (item.1, a).

(** A list of rows of python floats, as a model returns log-probabilities. *)
Definition float_rows (rows : list (list Q)) : pyvalue :=
  PyList ((fun row => PyList (PyScalar ∘ SFloat <$> row)) <$> rows).

(** A descriptor that is derived from one entry of a default dictionary. *)
Definition describes (item : string * pyvalue) (t : Tensor) : Prop :=
  name t = item.1 /\
  shape t = GetTensorShape item.2 /\
  GetNumpyDtype item.2 = Ok (dtype t) /\
  optional t = true.

(** The arrays numpy makes of one python float and of a list of them. *)
Definition float_cell (q : Q) : ndarray := mk_ndarray np_double [] [SFloat q].

Definition float_row_array (row : list Q) : ndarray :=
  mk_ndarray np_double [length row] (SFloat <$> row).

Definition is_SFloat (x : scalar) : bool :=
  match x with
  | SFloat _ => true
  | _ => false
  end.

(** The array [tensor.cpu().float().numpy()] makes of a tensor. *)
Definition upcast_array (t : torch_tensor) : ndarray :=
  mk_ndarray np_single (t_shape t) (t_data t).

(** * Properties *)

(** ** Dictionaries *)

Section dict_facts.
Context {V : Type}.
Implicit Types (d : dict V) (k : string) (v : V).

Lemma dict_get_is_Some k d : is_Some (dict_get k d) <-> k ∈ dict_keys d.
Proof.
  unfold dict_keys. induction d as [|[k' v'] r IH]; simpl.
  - split; [intros [? ?]; discriminate | intros H; inversion H].
  - destruct (decide (k' = k)) as [->|Hne].
    + split; [intros _; left | eauto].
    + rewrite IH. split; [intros H; now right|].
      intros H. inversion H; subst; [contradiction | assumption].
Qed.

Lemma dict_get_None k d : dict_get k d = None <-> k ∉ dict_keys d.
Proof.
  rewrite <- dict_get_is_Some. destruct (dict_get k d) as [v|].
  - split; [discriminate | intros H; destruct H; eauto].
  - split; [intros _ [? ?]; discriminate | reflexivity].
Qed.

Lemma dict_contains_true k d : dict_contains k d = true <-> k ∈ dict_keys d.
Proof.
  unfold dict_contains. rewrite bool_decide_eq_true. apply dict_get_is_Some.
Qed.

Lemma dict_get_remove_ne k k' d :
  k <> k' -> dict_get k (dict_remove k' d) = dict_get k d.
Proof.
  intros Hne. induction d as [|[k0 v0] r IH]; simpl; [reflexivity|].
  destruct (decide (k0 = k')) as [->|Hk0]; simpl.
  - destruct (decide (k' = k)); [congruence | reflexivity].
  - destruct (decide (k0 = k)); [reflexivity | exact IH].
Qed.

Lemma dict_get_set_eq k v d : dict_get k (dict_set k v d) = Some v.
Proof.
  induction d as [|[k0 v0] r IH]; simpl.
  - destruct (decide (k = k)); [reflexivity | contradiction].
  - destruct (decide (k0 = k)) as [->|Hk0]; simpl.
    + destruct (decide (k = k)); [reflexivity | contradiction].
    + destruct (decide (k0 = k)); [contradiction | exact IH].
Qed.

Lemma dict_get_set_ne k k' v d :
  k <> k' -> dict_get k (dict_set k' v d) = dict_get k d.
Proof.
  intros Hne. induction d as [|[k0 v0] r IH]; simpl.
  - destruct (decide (k' = k)); [congruence | reflexivity].
  - destruct (decide (k0 = k')) as [->|Hk0]; simpl.
    + destruct (decide (k' = k)); [congruence | reflexivity].
    + destruct (decide (k0 = k)); [reflexivity | exact IH].
Qed.

Lemma dict_keys_set_present k v d :
  k ∈ dict_keys d -> dict_keys (dict_set k v d) = dict_keys d.
Proof.
  unfold dict_keys. induction d as [|[k0 v0] r IH]; simpl; intros Hin.
  - inversion Hin.
  - destruct (decide (k0 = k)) as [->|Hk0]; simpl; [reflexivity|].
    f_equal. apply IH. inversion Hin; subst; [contradiction | assumption].
Qed.

Lemma dict_keys_set k k' v d :
  k ∈ dict_keys (dict_set k' v d) <-> k = k' \/ k ∈ dict_keys d.
Proof.
  rewrite <- !dict_get_is_Some. destruct (decide (k = k')) as [->|Hne].
  - rewrite dict_get_set_eq. split; eauto.
  - rewrite dict_get_set_ne by assumption. split; [eauto | intros [?|?]; done].
Qed.

End dict_facts.

(** ** The store: what the extraction loop does to it *)

Lemma override_from_present l p k d h a :
  h !! l = Some d -> dict_get k d = Some a ->
  override_from l p k h
  = (match first_element a with
     | Ok e => Ok (dict_set k e p)
     | Raise err => Raise err
     end, <[l := dict_remove k d]> h).
Proof.
  intros Hl Hget.
  unfold override_from, obj_contains, sbind, read_dict, sret, dict_contains.
  rewrite Hl. rewrite bool_decide_eq_true_2 by (rewrite Hget; eauto).
  unfold obj_pop, lift. rewrite Hl, Hget.
  now destruct (first_element a).
Qed.

Lemma override_from_absent l p k d h :
  h !! l = Some d -> dict_get k d = None ->
  override_from l p k h = (Ok p, h).
Proof.
  intros Hl Hget.
  unfold override_from, obj_contains, sbind, read_dict, sret, dict_contains.
  rewrite Hl. rewrite bool_decide_eq_false_2; [reflexivity|].
  rewrite Hget. intros [? ?]; discriminate.
Qed.

(** Whatever the loop does, it touches the object [l] only, and what it
    returns depends on the contents of [l] only. *)
Lemma for_each_override_run (l : nat) (ks : list string) :
  forall (p : dict pyvalue) (d : dict ndarray) (h : gmap nat (dict ndarray)),
    h !! l = Some d ->
    exists d',
      for_each (override_from l) ks p h = (override_all d ks p, <[l := d']> h).
Proof.
  induction ks as [|k ks IH]; intros p d h Hl; simpl.
  - exists d. unfold sret. now rewrite insert_id.
  - unfold sbind. destruct (dict_get k d) as [a|] eqn:Hget.
    + rewrite (override_from_present l p k d h a Hl Hget).
      destruct (first_element a) as [e|err]; simpl.
      * destruct (IH (dict_set k e p) (dict_remove k d)
                    (<[l := dict_remove k d]> h)) as [d' Hd'].
        { apply lookup_insert_eq. }
        exists d'. rewrite Hd'. now rewrite insert_insert_eq.
      * now exists (dict_remove k d).
    + rewrite (override_from_absent l p k d h Hl Hget).
      destruct (IH p d h Hl) as [d' Hd']. now exists d'.
Qed.

(** What the loop returns when every tensor it reads has a first element. *)
Lemma for_each_override_result (l : nat) (ks : list string) :
  forall (p : dict pyvalue) (d : dict ndarray) (h : gmap nat (dict ndarray)),
    NoDup ks ->
    h !! l = Some d ->
    (forall k a, k ∈ ks -> dict_get k d = Some a -> returns (first_element a)) ->
    (forall k, k ∈ ks -> k ∈ dict_keys p) ->
    exists p',
      (for_each (override_from l) ks p h).1 = Ok p' /\
      dict_keys p' = dict_keys p /\
      (forall k, k ∉ ks -> dict_get k p' = dict_get k p) /\
      (forall k, k ∈ ks ->
         match dict_get k d with
         | Some a =>
             exists e, first_element a = Ok e /\ dict_get k p' = Some e
         | None => dict_get k p' = dict_get k p
         end).
Proof.
  induction ks as [|k ks IH]; intros p d h Hnd Hl Hfirst Hkeys; simpl.
  - exists p. repeat split; try reflexivity. intros k Hk. inversion Hk.
  - apply NoDup_cons in Hnd as [Hk Hnd].
    unfold sbind. destruct (dict_get k d) as [a|] eqn:Hget.
    + rewrite (override_from_present l p k d h a Hl Hget).
      destruct (Hfirst k a) as [e He]; [left | assumption |].
      rewrite He.
      destruct (IH (dict_set k e p) (dict_remove k d)
                  (<[l := dict_remove k d]> h)) as (p' & Hrun & Hkeys' & Hout & Hin).
      * assumption.
      * apply lookup_insert_eq.
      * intros k' a' Hk' Hget'. apply (Hfirst k' a'); [now right|].
        rewrite dict_get_remove_ne in Hget'; [assumption|].
        intros ->. contradiction.
      * intros k' Hk'. apply dict_keys_set. right. apply Hkeys. now right.
      * exists p'. split; [exact Hrun|]. split.
        { rewrite Hkeys'. apply dict_keys_set_present, Hkeys. left. }
        split.
        { intros k' Hk'. rewrite Hout.
          - apply dict_get_set_ne. intros ->. apply Hk'. left.
          - intros Hks. apply Hk'. now right. }
        intros k' Hk'. apply elem_of_cons in Hk' as [->|Hk'].
        -- rewrite Hget. exists e. split; [assumption|].
           rewrite Hout by assumption. apply dict_get_set_eq.
        -- assert (k' <> k) as Hne by (intros ->; contradiction).
           specialize (Hin k' Hk').
           rewrite dict_get_remove_ne in Hin by assumption.
           destruct (dict_get k' d); [assumption|].
           rewrite Hin. now apply dict_get_set_ne.
    + rewrite (override_from_absent l p k d h Hl Hget).
      destruct (IH p d h) as (p' & Hrun & Hkeys' & Hout & Hin); try assumption.
      * intros k' a' Hk'. apply Hfirst. now right.
      * intros k' Hk'. apply Hkeys. now right.
      * exists p'. split; [exact Hrun|]. split; [assumption|]. split.
        { intros k' Hk'. apply Hout. intros Hks. apply Hk'. now right. }
        intros k' Hk'. apply elem_of_cons in Hk' as [->|Hk'].
        -- rewrite Hget. now apply Hout.
        -- now apply Hin.
Qed.

(** The helpers allocate their own dictionary and work on it. *)
Lemma extraction_run (defaults : dict pyvalue) (kwargs : dict ndarray)
    (h : gmap nat (dict ndarray)) :
  exists d',
    _sampling_params_from_triton_inputs defaults kwargs h
    = (extract_params defaults kwargs, <[fresh (dom h) := d']> h).
Proof.
  unfold _sampling_params_from_triton_inputs, sbind, new_dict.
  destruct (for_each_override_run (fresh (dom h)) (dict_keys defaults) defaults
              kwargs (<[fresh (dom h) := kwargs]> h)) as [d' Hd'].
  { apply lookup_insert_eq. }
  exists d'. rewrite Hd'. now rewrite insert_insert_eq.
Qed.

Lemma lookup_insert_fresh (h : gmap nat (dict ndarray)) (l : nat) d d' :
  h !! l = Some d -> <[fresh (dom h) := d']> h !! l = Some d.
Proof.
  intros Hl. rewrite lookup_insert_ne; [assumption|].
  intros Heq. pose proof (is_fresh (dom h)) as Hfresh.
  rewrite Heq in Hfresh. apply Hfresh, elem_of_dom. eauto.
Qed.

Lemma call_with_kwargs_run (defaults : dict pyvalue) (h : gmap nat (dict ndarray))
    (inputs : nat) (d : dict ndarray) :
  h !! inputs = Some d ->
  exists h',
    call_with_kwargs (_sampling_params_from_triton_inputs defaults) inputs h
    = (extract_params defaults d, h') /\
    h' !! inputs = Some d /\
    (forall l x, h !! l = Some x -> h' !! l = Some x).
Proof.
  intros Hl. unfold call_with_kwargs, sbind, read_dict. rewrite Hl.
  destruct (extraction_run defaults d h) as [d' Hd']. rewrite Hd'.
  eexists. split; [reflexivity|]. split.
  - now apply lookup_insert_fresh.
  - intros l x Hx. now apply lookup_insert_fresh.
Qed.

Lemma extract_params_result (defaults : dict pyvalue) (kwargs : dict ndarray) :
  NoDup (dict_keys defaults) ->
  has_first_elements defaults kwargs ->
  exists p,
    extract_params defaults kwargs = Ok p /\
    dict_keys p = dict_keys defaults /\
    (forall k v, dict_get k defaults = Some v ->
                 exists r, dict_get k p = Some r /\ extracted kwargs k v r).
Proof.
  intros Hnd Hfirst.
  destruct (for_each_override_result 0%nat (dict_keys defaults) defaults kwargs
              {[0%nat := kwargs]}) as (p & Hrun & Hkeys & _ & Hin);
    try done.
  destruct (for_each_override_run 0%nat (dict_keys defaults) defaults kwargs
              {[0%nat := kwargs]}) as [d' Hd']; [done|].
  rewrite Hd' in Hrun. simpl in Hrun.
  exists p. split; [exact Hrun|]. split; [exact Hkeys|].
  intros k v Hv.
  assert (k ∈ dict_keys defaults) as Hk by (apply dict_get_is_Some; eauto).
  specialize (Hin k Hk). unfold extracted.
  destruct (dict_get k kwargs) as [a|].
  - destruct Hin as (e & He & Hp). exists e. eauto.
  - exists v. split; [congruence | reflexivity].
Qed.

(** ** Parameter extraction *)

(** For a tensor of two or more dimensions with a first row that is not
    empty, the code's [[0][0]] is the first row's first element. *)
Lemma first_element_of_first_row (a : ndarray) (v : pyvalue) :
  first_row_first_element a = Some v -> first_element a = Ok v.
Proof.
  unfold first_row_first_element, first_element, nd_index0.
  destruct a as [dt shp data]. simpl.
  destruct shp as [|[|b] [|[|n] s]]; try discriminate.
  intros [= <-]. simpl. do 3 f_equal.
  change (foldr Nat.mul 1%nat s) with (size_of s).
  rewrite take_take. f_equal. lia.
Qed.

Lemma has_first_rows_elements (defaults : dict pyvalue) (kwargs : dict ndarray) :
  has_first_rows defaults kwargs -> has_first_elements defaults kwargs.
Proof.
  intros Hrows k a Hk Hget. destruct (Hrows k a Hk Hget) as [v Hv].
  exists v. now apply first_element_of_first_row.
Qed.

Lemma extract_params_overridden (defaults : dict pyvalue) (kwargs : dict ndarray) :
  NoDup (dict_keys defaults) ->
  has_first_rows defaults kwargs ->
  exists p,
    extract_params defaults kwargs = Ok p /\
    dict_keys p = dict_keys defaults /\
    (forall k v, dict_get k defaults = Some v ->
                 exists r, dict_get k p = Some r /\ overridden kwargs k v r).
Proof.
  intros Hnd Hrows.
  destruct (extract_params_result defaults kwargs Hnd
              (has_first_rows_elements _ _ Hrows)) as (p & Hp & Hkeys & Hget).
  exists p. split; [exact Hp|]. split; [exact Hkeys|].
  intros k v Hv. destruct (Hget k v Hv) as (r & Hr & He).
  exists r. split; [exact Hr|].
  assert (k ∈ dict_keys defaults) as Hk by (apply dict_get_is_Some; eauto).
  unfold extracted in He. unfold overridden.
  destruct (dict_get k kwargs) as [a|] eqn:Ha; [|exact He].
  destruct (Hrows k a Hk Ha) as [r' Hr'].
  rewrite (first_element_of_first_row a r' Hr') in He.
  injection He as <-. exact Hr'.
Qed.

(** The entry of a parameter that a batch gives as a tensor of shape
    [(B, n)]: the first datum of the tensor. *)
Lemma overridden_first_datum (defaults : dict pyvalue) (kwargs : dict ndarray)
    (p : dict pyvalue) (k : string) (dt : np_dtype) (b n : nat) (x : scalar)
    (rest : list scalar) :
  (forall k v, dict_get k defaults = Some v ->
               exists r, dict_get k p = Some r /\ overridden kwargs k v r) ->
  dict_get k kwargs = Some (mk_ndarray dt [S b; S n] (x :: rest)) ->
  k ∈ dict_keys defaults ->
  dict_get k p = Some (PyArray (mk_ndarray dt [] [x])).
Proof.
  intros Hget Ha Hk. apply dict_get_is_Some in Hk as [v Hv].
  destruct (Hget k v Hv) as (r & Hr & Ho).
  unfold overridden in Ho. rewrite Ha in Ho. simpl in Ho.
  injection Ho as <-. exact Hr.
Qed.

(** Extraction does not return for every request batch: a batch whose
    [end_strings] tensor has an empty first row has no first row's first
    element, and [[0][0]] raises [IndexError]. *)
Lemma extraction_of_some_batch_raises :
  ~ (forall (sampling : dict pyvalue) (kwargs : dict ndarray)
            (h : gmap nat (dict ndarray)),
       NoDup (dict_keys sampling) ->
       exists sp,
         (_sampling_params_from_triton_inputs sampling kwargs h).1 = Ok sp /\
         dict_keys sp = dict_keys sampling /\
         (forall k v, dict_get k sampling = Some v ->
                      exists r, dict_get k sp = Some r /\
                                overridden kwargs k v r)).
Proof.
  intros H.
  destruct (H sample_sampling_params empty_row_batch ∅) as (sp & Hsp & _).
  - apply (bool_decide_unpack _). vm_compute. exact I.
  - vm_compute in Hsp. discriminate.
Qed.

(** C2, for the batches that have first elements to read: when every tensor
    of the batch under a parameter name has a first row with a first element
    (two or more dimensions, a row, and a first row that is not empty),
    parameter extraction returns the default sampling and length dictionaries
    with the keys that are present in the batch set to the first row's first
    element of their tensors, whatever the other rows hold; keys absent from
    the batch keep their defaults, and keys of the batch that are no parameter
    names change nothing. For a tensor of shape [(B, n)] the entry is the
    tensor's first datum. *)
Theorem parameter_extraction_overrides
    (sampling length : dict pyvalue) (kwargs : dict ndarray)
    (h : gmap nat (dict ndarray)) :
  NoDup (dict_keys sampling) ->
  NoDup (dict_keys length) ->
  has_first_rows sampling kwargs ->
  has_first_rows length kwargs ->
  exists sp lp,
    (_sampling_params_from_triton_inputs sampling kwargs h).1 = Ok sp /\
    (_length_params_from_triton_inputs length kwargs h).1 = Ok lp /\
    dict_keys sp = dict_keys sampling /\
    dict_keys lp = dict_keys length /\
    (forall k v, dict_get k sampling = Some v ->
                 exists r, dict_get k sp = Some r /\ overridden kwargs k v r) /\
    (forall k v, dict_get k length = Some v ->
                 exists r, dict_get k lp = Some r /\ overridden kwargs k v r) /\
    (forall k dt b n x rest,
       dict_get k kwargs = Some (mk_ndarray dt [S b; S n] (x :: rest)) ->
       (k ∈ dict_keys sampling ->
        dict_get k sp = Some (PyArray (mk_ndarray dt [] [x]))) /\
       (k ∈ dict_keys length ->
        dict_get k lp = Some (PyArray (mk_ndarray dt [] [x])))).
Proof.
  intros Hs Hl Hfs Hfl.
  destruct (extract_params_overridden sampling kwargs Hs Hfs)
    as (sp & Hsp & Hks & Hps).
  destruct (extract_params_overridden length kwargs Hl Hfl)
    as (lp & Hlp & Hkl & Hpl).
  exists sp, lp.
  destruct (extraction_run sampling kwargs h) as [d1 H1].
  destruct (extraction_run length kwargs h) as [d2 H2].
  unfold _length_params_from_triton_inputs.
  change (sbind (new_dict kwargs) (fun inputs =>
            for_each (override_from inputs) (dict_keys length) length))
    with (_sampling_params_from_triton_inputs length kwargs).
  rewrite H1, H2. simpl.
  split; [exact Hsp|]. split; [exact Hlp|]. split; [exact Hks|].
  split; [exact Hkl|]. split; [exact Hps|]. split; [exact Hpl|].
  intros k dt b n x rest Ha. split; intros Hk.
  - exact (overridden_first_datum sampling kwargs sp k dt b n x rest Hps Ha Hk).
  - exact (overridden_first_datum length kwargs lp k dt b n x rest Hpl Ha Hk).
Qed.

Lemma call_length_with_kwargs_run (defaults : dict pyvalue)
    (h : gmap nat (dict ndarray)) (inputs : nat) (d : dict ndarray) :
  h !! inputs = Some d ->
  exists h',
    call_with_kwargs (_length_params_from_triton_inputs defaults) inputs h
    = (extract_params defaults d, h') /\
    h' !! inputs = Some d /\
    (forall l x, h !! l = Some x -> h' !! l = Some x).
Proof. exact (call_with_kwargs_run defaults h inputs d). Qed.

(** The first three statements of the entry point, run on its dictionary. *)
Lemma marshal_inputs_run (sampling length : dict pyvalue)
    (h : gmap nat (dict ndarray)) (inputs : nat) (d : dict ndarray)
    (prompts : ndarray) :
  h !! inputs = Some d ->
  dict_get "prompts" d = Some prompts ->
  exists h',
    marshal_inputs sampling length inputs h
    = ((let? input_strings := str_ndarray2list prompts in
        let? sp := extract_params sampling (dict_remove "prompts" d) in
        let? lp := extract_params length (dict_remove "prompts" d) in
        Ok (input_strings, sp, lp)), h') /\
    h' !! inputs = Some (dict_remove "prompts" d).
Proof.
  intros Hl Hget. unfold marshal_inputs.
  unfold sbind at 1. unfold obj_pop. rewrite Hl, Hget.
  set (d' := dict_remove "prompts" d). set (h0 := <[inputs := d']> h).
  assert (h0 !! inputs = Some d') as H0 by apply lookup_insert_eq.
  unfold sbind at 1. unfold lift at 1.
  destruct (str_ndarray2list prompts) as [strs|err]; simpl; [|eauto].
  destruct (call_with_kwargs_run sampling h0 inputs d' H0) as (h1 & Hrun1 & H1 & _).
  unfold sbind at 1. rewrite Hrun1.
  destruct (extract_params sampling d') as [sp|err]; simpl; [|eauto].
  destruct (call_length_with_kwargs_run length h1 inputs d' H1)
    as (h2 & Hrun2 & H2 & _).
  unfold sbind at 1. rewrite Hrun2.
  destruct (extract_params length d') as [lp|err]; simpl; eauto.
Qed.

(** C10: the extraction helpers leave the caller's mapping as it is. They
    work on a dictionary of their own that holds the caller's items, so what
    they pop is gone from that dictionary only; within the entry point the
    length extraction, which runs after the sampling extraction, is given all
    items of the request but the prompts. *)
Theorem extraction_leaves_caller_mapping
    (sampling length : dict pyvalue) (h : gmap nat (dict ndarray))
    (inputs : nat) (d : dict ndarray) :
  h !! inputs = Some d ->
  (exists h1 h2,
     call_with_kwargs (_sampling_params_from_triton_inputs sampling) inputs h
     = (extract_params sampling d, h1) /\
     h1 !! inputs = Some d /\
     call_with_kwargs (_length_params_from_triton_inputs length) inputs h1
     = (extract_params length d, h2) /\
     h2 !! inputs = Some d /\
     (forall l x, h !! l = Some x -> h2 !! l = Some x)) /\
  (forall prompts,
     dict_get "prompts" d = Some prompts ->
     exists h',
       marshal_inputs sampling length inputs h
       = ((let? input_strings := str_ndarray2list prompts in
           let? sp := extract_params sampling (dict_remove "prompts" d) in
           let? lp := extract_params length (dict_remove "prompts" d) in
           Ok (input_strings, sp, lp)), h') /\
       h' !! inputs = Some (dict_remove "prompts" d) /\
       (forall k, k <> "prompts" ->
          dict_get k (dict_remove "prompts" d) = dict_get k d)).
Proof.
  intros Hl. split.
  - destruct (call_with_kwargs_run sampling h inputs d Hl) as (h1 & Hrun1 & H1 & Hf1).
    destruct (call_length_with_kwargs_run length h1 inputs d H1)
      as (h2 & Hrun2 & H2 & Hf2).
    exists h1, h2. repeat split; try assumption.
    intros l x Hx. apply Hf2, Hf1, Hx.
  - intros prompts Hp.
    destruct (marshal_inputs_run sampling length h inputs d prompts Hl Hp)
      as (h' & Hrun & Hh').
    exists h'. repeat split; try assumption.
    intros k Hk. now apply dict_get_remove_ne.
Qed.

Lemma extraction_leaves_caller_mapping_witness :
  ({[5%nat := sample_batch]} : gmap nat (dict ndarray)) !! 5%nat
  = Some sample_batch /\
  exists h',
    marshal_inputs sample_sampling_params sample_length_params 5%nat
      {[5%nat := sample_batch]}
    = ((let? input_strings := str_ndarray2list sample_prompts in
        let? sp := extract_params sample_sampling_params
                     (dict_remove "prompts" sample_batch) in
        let? lp := extract_params sample_length_params
                     (dict_remove "prompts" sample_batch) in
        Ok (input_strings, sp, lp)), h') /\
    h' !! 5%nat = Some (dict_remove "prompts" sample_batch).
Proof.
  split; [reflexivity|].
  destruct (extraction_leaves_caller_mapping sample_sampling_params
              sample_length_params {[5%nat := sample_batch]} 5%nat sample_batch)
    as [_ Hm]; [reflexivity|].
  destruct (Hm sample_prompts) as (h' & Hrun & Hh' & _); [reflexivity|].
  exists h'. split; assumption.
Defined.

Lemma parameter_extraction_overrides_witness :
  exists sp lp,
    (_sampling_params_from_triton_inputs sample_sampling_params
       two_request_batch ∅).1 = Ok sp /\
    (_length_params_from_triton_inputs sample_length_params
       two_request_batch ∅).1 = Ok lp /\
    dict_get "temperature" sp
    = Some (PyArray (mk_ndarray np_single [] [SFloat (7 # 10)])) /\
    dict_get "top_k" sp = Some (PyInt 0) /\
    dict_get "max_length" lp = Some (PyInt 30) /\
    dict_keys sp = dict_keys sample_sampling_params.
Proof.
  assert (forall defaults, has_first_rows defaults two_request_batch) as Hrows.
  { intros defaults k a _ Hget. unfold two_request_batch in Hget.
    simpl in Hget. repeat case_decide; simplify_eq; eexists; reflexivity. }
  destruct (parameter_extraction_overrides sample_sampling_params
              sample_length_params two_request_batch ∅)
    as (sp & lp & Hsp & Hlp & Hks & Hkl & Hps & Hpl & Hfirst).
  - apply (bool_decide_unpack _). vm_compute. exact I.
  - apply (bool_decide_unpack _). vm_compute. exact I.
  - apply Hrows.
  - apply Hrows.
  - exists sp, lp. split; [exact Hsp|]. split; [exact Hlp|].
    destruct (Hfirst "temperature" np_single 1%nat 0%nat (SFloat (7 # 10))
                [SFloat (9 # 10)] eq_refl) as [Ht _].
    destruct (Hps "top_k" (PyInt 0) eq_refl) as (r2 & Hr2 & He2).
    destruct (Hpl "max_length" (PyInt 30) eq_refl) as (r3 & Hr3 & He3).
    unfold overridden in He2, He3. simpl in He2, He3. subst r2 r3.
    split; [apply Ht, (bool_decide_unpack _); vm_compute; exact I|].
    repeat split; assumption.
Defined.

(** A tensor without a first element: the extraction raises [IndexError]. *)
Example extraction_of_empty_row :
  (_sampling_params_from_triton_inputs sample_sampling_params
     empty_row_batch ∅).1 = Raise IndexError.
Proof. vm_compute. reflexivity. Qed.

(** ** The entry point *)

Lemma triton_infer_fn_run (sampling length : dict pyvalue)
    (self : MegatronGPTDeployable) (kwargs : dict ndarray)
    (h : gmap nat (dict ndarray)) :
  (triton_infer_fn sampling length self kwargs h).1
  = infer sampling length self kwargs.
Proof.
  unfold triton_infer_fn, infer, dict_item.
  unfold sbind at 1. unfold new_dict. cbv zeta.
  set (l := fresh (dom h)). set (h0 := <[l := kwargs]> h).
  assert (h0 !! l = Some kwargs) as H0 by apply lookup_insert_eq.
  unfold sbind at 1.
  destruct (dict_get "prompts" kwargs) as [prompts|] eqn:Hget; simpl.
  - destruct (marshal_inputs_run sampling length h0 l kwargs prompts H0 Hget)
      as (h' & Hrun & _).
    rewrite Hrun.
    destruct (str_ndarray2list prompts) as [strs|?]; simpl; [|reflexivity].
    destruct (extract_params sampling _) as [sp|?]; simpl; [|reflexivity].
    destruct (extract_params length _) as [lp|?]; simpl; [|reflexivity].
    unfold sbind at 1. unfold lift at 1.
    destruct (get_model self) as [m|?]; simpl; [|reflexivity].
    unfold sbind, lift.
    now destruct (generate m strs lp sp).
  - unfold marshal_inputs. unfold sbind at 1. unfold obj_pop.
    rewrite H0, Hget. reflexivity.
Qed.

(** Not every call on the unloaded instance fails with an attribute error:
    the first three statements of the entry point run before [self.model] is
    read, and a request without [prompts] raises [KeyError] there. *)
Lemma unloaded_call_without_prompts :
  ~ (forall (path_exists : string -> pyresult bool)
            (new_Trainer : string -> string -> Z -> Z -> pyresult Trainer)
            (restore_config : string -> Trainer -> pyresult model_config)
            (restore_from :
               string -> Trainer -> model_config -> pyresult MegatronGPTModel)
            (eval : MegatronGPTModel -> pyresult MegatronGPTModel)
            (path : string) (num_devices num_nodes : Z)
            (sampling length : dict pyvalue) (kwargs : dict ndarray)
            (h : gmap nat (dict ndarray)),
       path_exists path = Ok false ->
       exists self,
         __init__ path_exists new_Trainer restore_config restore_from eval
           path num_devices num_nodes = Ok self /\
         model self = None /\
         (triton_infer_fn sampling length self kwargs h).1
         = Raise AttributeError).
Proof.
  intros H.
  destruct (H (fun _ => Ok false) (fun _ _ _ _ => Raise RuntimeError)
              (fun _ _ => Raise RuntimeError)
              (fun _ _ _ => Raise RuntimeError) (fun _ => Raise RuntimeError)
              "missing.nemo" 1 1 sample_sampling_params sample_length_params
              [("temperature", sample_temperature)] ∅ eq_refl)
    as (self & Hinit & _ & Hcall).
  vm_compute in Hinit. injection Hinit as <-.
  vm_compute in Hcall. discriminate.
Qed.

(** C7, with the exception a call raises: with a checkpoint path that names
    no file the constructor returns an instance that has no model, and no
    call of the entry point on it returns. A call whose request is marshalled
    (it has prompts, they decode, and the parameters are extracted) raises
    [AttributeError] at the first use of [self.model]; any other call raises
    the exception of the marshalling, the one it raises on every instance,
    which is [KeyError] for a request without [prompts]. *)
Theorem missing_checkpoint_unloaded
    (path_exists : string -> pyresult bool)
    (new_Trainer : string -> string -> Z -> Z -> pyresult Trainer)
    (restore_config : string -> Trainer -> pyresult model_config)
    (restore_from :
       string -> Trainer -> model_config -> pyresult MegatronGPTModel)
    (eval : MegatronGPTModel -> pyresult MegatronGPTModel)
    (path : string) (num_devices num_nodes : Z)
    (sampling length : dict pyvalue) (kwargs : dict ndarray)
    (h : gmap nat (dict ndarray)) :
  path_exists path = Ok false ->
  exists self,
    __init__ path_exists new_Trainer restore_config restore_from eval
      path num_devices num_nodes = Ok self /\
    model self = None /\
    get_model self = Raise AttributeError /\
    raises (triton_infer_fn sampling length self kwargs h).1 /\
    (request_marshals sampling length kwargs ->
     (triton_infer_fn sampling length self kwargs h).1 = Raise AttributeError) /\
    (~ request_marshals sampling length kwargs ->
     forall other h',
       (triton_infer_fn sampling length other kwargs h').1
       = (triton_infer_fn sampling length self kwargs h).1) /\
    (dict_get "prompts" kwargs = None ->
     (triton_infer_fn sampling length self kwargs h).1 = Raise KeyError).
Proof.
  intros Hpath. exists (mk_deployable path None).
  split; [unfold __init__, _load; now rewrite Hpath|].
  split; [reflexivity|]. split; [reflexivity|].
  split; [|split; [|split]].
  - rewrite triton_infer_fn_run. unfold infer, dict_item, raises.
    destruct (dict_get "prompts" kwargs); simpl; [|eauto].
    destruct (str_ndarray2list _); simpl; [|eauto].
    destruct (extract_params sampling _); simpl; [|eauto].
    destruct (extract_params length _); simpl; eauto.
  - rewrite triton_infer_fn_run. unfold infer, dict_item.
    intros (prompts & strs & sp & lp & Hp & Hs & Hsp & Hlp).
    rewrite Hp. simpl. rewrite Hs. simpl. rewrite Hsp. simpl. rewrite Hlp.
    reflexivity.
  - intros Hno other h'. rewrite !triton_infer_fn_run. unfold infer, dict_item.
    destruct (dict_get "prompts" kwargs) as [prompts|] eqn:Hp; simpl;
      [|reflexivity].
    destruct (str_ndarray2list prompts) as [strs|?] eqn:Hs; simpl;
      [|reflexivity].
    destruct (extract_params sampling _) as [sp|?] eqn:Hsp; simpl;
      [|reflexivity].
    destruct (extract_params length _) as [lp|?] eqn:Hlp; simpl;
      [|reflexivity].
    exfalso. apply Hno. exists prompts, strs, sp, lp. auto.
  - intros Hp. rewrite triton_infer_fn_run. unfold infer, dict_item.
    now rewrite Hp.
Qed.

Lemma missing_checkpoint_unloaded_witness :
  __init__ (fun _ => Ok false) (fun _ _ _ _ => Raise RuntimeError)
    (fun _ _ => Raise RuntimeError) (fun _ _ _ => Raise RuntimeError)
    (fun _ => Raise RuntimeError) "missing.nemo" 1 1 = Ok unloaded /\
  (triton_infer_fn sample_sampling_params sample_length_params unloaded
     sample_batch ∅).1 = Raise AttributeError /\
  (triton_infer_fn sample_sampling_params sample_length_params unloaded
     [("temperature", sample_temperature)] ∅).1 = Raise KeyError.
Proof.
  destruct (missing_checkpoint_unloaded (fun _ => Ok false)
              (fun _ _ _ _ => Raise RuntimeError)
              (fun _ _ => Raise RuntimeError) (fun _ _ _ => Raise RuntimeError)
              (fun _ => Raise RuntimeError)
              "missing.nemo" 1 1 sample_sampling_params sample_length_params
              sample_batch ∅ eq_refl)
    as (self & Hinit & _ & _ & _ & Hattr & _).
  destruct (missing_checkpoint_unloaded (fun _ => Ok false)
              (fun _ _ _ _ => Raise RuntimeError)
              (fun _ _ => Raise RuntimeError) (fun _ _ _ => Raise RuntimeError)
              (fun _ => Raise RuntimeError)
              "missing.nemo" 1 1 sample_sampling_params sample_length_params
              [("temperature", sample_temperature)] ∅ eq_refl)
    as (self' & Hinit' & _ & _ & _ & _ & _ & Hkey).
  vm_compute in Hinit. injection Hinit as <-.
  vm_compute in Hinit'. injection Hinit' as <-.
  split; [reflexivity|]. split.
  - apply Hattr. unfold request_marshals. do 4 eexists.
    repeat split; vm_compute; reflexivity.
  - apply Hkey. reflexivity.
Defined.

(** ** Filling a field the model left empty *)

Lemma rmap_replicate {A B} (f : A -> pyresult B) (n : nat) (x : A) (y : B) :
  f x = Ok y -> rmap f (replicate n x) = Ok (replicate n y).
Proof.
  intros Hf. induction n as [|n IH]; simpl; [reflexivity|].
  now rewrite Hf, IH.
Qed.

Lemma mjoin_replicate_replicate {A} (n m : nat) (x : A) :
  mjoin (replicate n (replicate m x)) = replicate (n * m) x.
Proof.
  induction n as [|n IH]; simpl; [reflexivity|].
  now rewrite IH, replicate_add.
Qed.

Lemma broadcast_data_scalar {A} (s : list nat) (x : A) :
  broadcast_data s [] [x] = Some (replicate (size_of s) x).
Proof.
  induction s as [|n s IH]; simpl; [reflexivity|].
  destruct (decide (0 <= length s)%nat) as [_|Hlt]; [|lia].
  rewrite IH. simpl. now rewrite mjoin_replicate_replicate.
Qed.

Lemma broadcast_data_one {A} (s : list nat) (x : A) :
  s <> [] -> broadcast_data s [1%nat] [x] = Some (replicate (size_of s) x).
Proof.
  induction s as [|n s IH]; [done|]. intros _. simpl.
  destruct (decide (1 <= length s)%nat) as [Hle|Hgt].
  - rewrite IH by (destruct s; [simpl in Hle; lia | done]).
    simpl. now rewrite mjoin_replicate_replicate.
  - destruct s as [|? ?]; [|simpl in Hgt; lia]. simpl.
    destruct (decide (1%nat = n)) as [<-|Hn]; [reflexivity|].
    simpl. replace (n * 1)%nat with n by lia.
    clear. induction n as [|n IH]; simpl; [reflexivity|].
    injection IH as ->. reflexivity.
Qed.

Lemma np_full_of_one (shp : list nat) (fill : pyvalue) (d0 : np_dtype)
    (fs : list nat) (x : scalar) (dt : np_dtype) (x' : scalar) :
  np_array fill = Ok (mk_ndarray d0 fs [x]) ->
  fs = [] \/ fs = [1%nat] ->
  astype_scalar dt x = Ok x' ->
  np_full shp fill dt = Ok (mk_ndarray dt shp (replicate (size_of shp) x')).
Proof.
  intros Hfill Hfs Hx. unfold np_full. rewrite Hfill. simpl.
  assert (broadcast_data shp (strip_leading_ones (length shp) fs) [x]
          = Some (replicate (size_of shp) x)) as ->.
  { destruct Hfs as [->| ->]; simpl.
    - apply broadcast_data_scalar.
    - destruct shp as [|n s]; [reflexivity|].
      unfold strip_leading_ones.
      destruct (decide (length (n :: s) < length [1%nat])%nat) as [Hlt|_];
        [simpl in Hlt; lia|].
      now apply broadcast_data_one. }
  simpl. now rewrite (rmap_replicate _ _ _ _ Hx).
Qed.

Lemma placeholder_fields (field : string) (dt : np_dtype) (x : scalar) :
  placeholder field = Some (dt, x) ->
  (field = "sentences" /\ dt = np_bytes /\ x = SBytes []) \/
  (field = "tokens" /\ dt = np_bytes /\ x = SBytes []) \/
  (field = "logprob" /\ dt = np_single /\ x = SFloat 0) \/
  (field = "full_logprob" /\ dt = np_single /\ x = SFloat 0) \/
  (field = "token_ids" /\ dt = np_int_ /\ x = SInt 0) \/
  (field = "offsets" /\ dt = np_int_ /\ x = SInt 0).
Proof.
  unfold placeholder. intros H.
  repeat (case_decide; [simplify_eq; tauto|]). discriminate.
Qed.

(** The schema's element type and fill value agree with the table of
    placeholders. *)
Lemma field_dtype_of (field : string) (dt : np_dtype) (x : scalar) :
  placeholder field = Some (dt, x) ->
  schema_dtype field = Ok dt /\
  exists fill_value,
    blank_of field = Ok fill_value /\
    forall shp,
      np_full shp fill_value dt
      = Ok (mk_ndarray dt shp (replicate (size_of shp) x)).
Proof.
  intros Hp. apply placeholder_fields in Hp.
  destruct Hp as [(-> & -> & ->)|[(-> & -> & ->)|[(-> & -> & ->)|
                 [(-> & -> & ->)|[(-> & -> & ->)|(-> & -> & ->)]]]]];
    (split; [reflexivity|]); eexists; (split; [reflexivity|]);
    intros shp; eapply np_full_of_one; try reflexivity; auto.
Qed.

(** The array for a field whose value is [None]. *)
Lemma output_tensor_of_None (model_output : dict pyvalue) (field : string)
    (dt : np_dtype) (x : scalar) (sentences : pyvalue) (shp : list nat) :
  placeholder field = Some (dt, x) ->
  dict_get "sentences" model_output = Some sentences ->
  np_shape sentences = Ok shp ->
  output_tensor model_output field PyNone
  = Ok (mk_ndarray dt shp (replicate (size_of shp) x)).
Proof.
  intros Hp Hs Hshp.
  destruct (field_dtype_of field dt x Hp) as (Hd & fill & Hfill & Hfull).
  unfold output_tensor, dict_item. rewrite Hd. cbn [rbind is_None].
  rewrite Hs. cbn [of_option rbind]. rewrite Hshp. cbn [rbind].
  rewrite Hfill. cbn [rbind]. apply Hfull.
Qed.

(** What [fill_outputs] leaves in the result. *)
Lemma fill_outputs_get (model_output : dict pyvalue)
    (items : list (string * pyvalue)) :
  forall (acc out : dict ndarray),
    fill_outputs model_output items acc = Ok out ->
    (forall k, k ∈ dict_keys out <-> k ∈ dict_keys acc \/ k ∈ items.*1) /\
    (forall k, k ∈ items.*1 -> is_Some (dict_get k _BLANK_OUTPUTTYPE)) /\
    (forall k, k ∉ items.*1 -> dict_get k out = dict_get k acc) /\
    (NoDup items.*1 ->
     forall k v, (k, v) ∈ items ->
       exists a, output_tensor model_output k v = Ok a /\
                 dict_get k out = Some a).
Proof.
  induction items as [|[f v] r IH]; intros acc out Hrun; simpl in Hrun.
  - injection Hrun as <-. repeat split.
    + now left.
    + intros [?|H]; [assumption | inversion H].
    + intros k H. inversion H.
    + intros _ k v H. inversion H.
  - destruct (output_tensor model_output f v) as [a|?] eqn:Hout;
      simpl in Hrun; [|discriminate].
    destruct (IH _ _ Hrun) as (Hkeys & Hschema & Hother & Hget).
    repeat split.
    + intros Hk. apply Hkeys in Hk as [Hk|Hk].
      * apply dict_keys_set in Hk as [->|Hk]; [right; left | now left].
      * right. now right.
    + intros [Hk|Hk]; apply Hkeys.
      * left. apply dict_keys_set. now right.
      * simpl in Hk. apply elem_of_cons in Hk as [->|Hk]; [|now right].
        left. apply dict_keys_set. now left.
    + intros k Hk. simpl in Hk. apply elem_of_cons in Hk as [->|Hk].
      * unfold output_tensor, schema_dtype, blank_of, dict_item in Hout.
        destruct (dict_get f _BLANK_OUTPUTTYPE); [eauto | discriminate].
      * now apply Hschema.
    + intros k Hk. simpl in Hk. rewrite Hother.
      * apply dict_get_set_ne. intros ->. apply Hk. left.
      * intros Hr. apply Hk. now right.
    + intros Hnd k v' Hin. simpl in Hnd. apply NoDup_cons in Hnd as [Hf Hnd].
      apply elem_of_cons in Hin as [Heq|Hin].
      * injection Heq as -> ->. exists a. split; [assumption|].
        rewrite Hother by assumption. apply dict_get_set_eq.
      * now apply Hget.
Qed.

Lemma dict_get_elem_of {V} (k : string) (v : V) (d : dict V) :
  dict_get k d = Some v -> (k, v) ∈ d.
Proof.
  induction d as [|[k' v'] r IH]; simpl; [discriminate|].
  destruct (decide (k' = k)) as [->|Hne].
  - intros [= ->]. left.
  - intros H. right. now apply IH.
Qed.

(** C3: an output field whose value in the model's result is [None] is
    filled with an array of the field's placeholder value ([0.0] for
    [full_logprob]), of the shape of the result's [sentences] and of the
    field's schema element type. *)
Theorem missing_field_filled_with_default
    (model_output : dict pyvalue) (field : string) (dt : np_dtype)
    (x : scalar) (sentences : pyvalue) (shp : list nat) :
  placeholder field = Some (dt, x) ->
  dict_get "sentences" model_output = Some sentences ->
  np_shape sentences = Ok shp ->
  schema_dtype field = Ok dt /\
  (exists fill_value,
     blank_of field = Ok fill_value /\
     output_tensor model_output field PyNone = np_full shp fill_value dt) /\
  output_tensor model_output field PyNone
  = Ok (mk_ndarray dt shp (replicate (size_of shp) x)) /\
  (forall out,
     NoDup (dict_keys model_output) ->
     dict_get field model_output = Some PyNone ->
     fill_outputs model_output model_output [] = Ok out ->
     dict_get field out
     = Some (mk_ndarray dt shp (replicate (size_of shp) x))).
Proof.
  intros Hp Hs Hshp.
  pose proof (output_tensor_of_None _ _ _ _ _ _ Hp Hs Hshp) as Hfill.
  destruct (field_dtype_of field dt x Hp) as (Hd & fill & Hblank & Hfull).
  split; [exact Hd|]. split.
  { exists fill. split; [exact Hblank|]. now rewrite Hfill, Hfull. }
  split; [exact Hfill|].
  intros out Hnd Hnone Hrun.
  destruct (fill_outputs_get _ _ _ _ Hrun) as (_ & _ & _ & Hget).
  destruct (Hget Hnd field PyNone (dict_get_elem_of _ _ _ Hnone))
    as (a & Ha & Hout).
  rewrite Hfill in Ha. injection Ha as <-. exact Hout.
Qed.

Lemma missing_field_filled_with_default_witness :
  output_tensor (sample_output [codepoints "a"; codepoints "b"])
    "full_logprob" PyNone
  = Ok (mk_ndarray np_single [2%nat] [SFloat 0; SFloat 0]).
Proof.
  destruct (missing_field_filled_with_default
              (sample_output [codepoints "a"; codepoints "b"]) "full_logprob"
              np_single (SFloat 0)
              (PyList [PyStr (codepoints "a"); PyStr (codepoints "b")])
              [2%nat]) as (_ & _ & Hfill & _);
    [reflexivity | reflexivity | reflexivity | exact Hfill].
Defined.

(** ** The keys of the response *)

(** What a call that returns has done: it has called the model of the
    instance and built the response from the model's result. *)
Lemma triton_infer_fn_returns
    (sampling length : dict pyvalue) (self : MegatronGPTDeployable)
    (kwargs : dict ndarray) (h : gmap nat (dict ndarray))
    (out : dict ndarray) :
  (triton_infer_fn sampling length self kwargs h).1 = Ok out ->
  exists m input_strings lp sp model_output,
    model self = Some m /\
    generate m input_strings lp sp = Ok model_output /\
    fill_outputs model_output model_output [] = Ok out.
Proof.
  rewrite triton_infer_fn_run. unfold infer, get_model. intros Hrun.
  destruct (dict_item "prompts" kwargs) as [prompts|?]; [|discriminate].
  simpl in Hrun.
  destruct (str_ndarray2list prompts) as [strs|?]; [|discriminate].
  simpl in Hrun.
  destruct (extract_params sampling _) as [sp|?]; [|discriminate].
  simpl in Hrun.
  destruct (extract_params length _) as [lp|?]; [|discriminate].
  simpl in Hrun.
  destruct (model self) as [m|]; [|discriminate]. simpl in Hrun.
  destruct (generate m strs lp sp) as [model_output|?] eqn:Hgen;
    [|discriminate].
  simpl in Hrun. exists m, strs, lp, sp, model_output. auto.
Qed.

(** The keys of the response are those of the model's result: the loop runs
    over the result's items, so a model that does not keep to its declared
    type and leaves fields out gets a response without them. *)
Lemma absent_field_stays_absent :
  exists out,
    (triton_infer_fn sample_sampling_params sample_length_params
       (loaded sentences_only_model) sample_batch ∅).1 = Ok out /\
    dict_keys out = ["sentences"].
Proof. eexists. split; vm_compute; reflexivity. Qed.

Lemma placeholder_of_schema_key (k : string) :
  k ∈ output_schema_keys -> exists dt x, placeholder k = Some (dt, x).
Proof.
  intros Hin. unfold output_schema_keys in Hin. unfold placeholder.
  repeat (apply elem_of_cons in Hin as [->|Hin]; [simpl; eauto|]).
  inversion Hin.
Qed.

(** C1: a call of the entry point that returns gives a mapping with every
    key of the output schema, and with no other key. The model's result is
    keyed by the names of the output schema, as the declared type of
    [generate] has it; a field the model does not produce is one whose value
    in the result is [None], and that key is filled with the field's
    placeholder, broadcast to the shape of the result's [sentences] and of
    the field's schema element type. *)
Theorem response_has_every_schema_key
    (sampling length : dict pyvalue) (self : MegatronGPTDeployable)
    (m : MegatronGPTModel) (kwargs : dict ndarray)
    (h : gmap nat (dict ndarray)) (out : dict ndarray) :
  model self = Some m ->
  generates_OutputType m ->
  (triton_infer_fn sampling length self kwargs h).1 = Ok out ->
  (forall k, k ∈ output_schema_keys -> k ∈ dict_keys out) /\
  (forall k, k ∈ dict_keys out -> k ∈ output_schema_keys) /\
  exists input_strings lp sp model_output sentences,
    generate m input_strings lp sp = Ok model_output /\
    dict_get "sentences" model_output = Some sentences /\
    forall k,
      dict_get k model_output = Some PyNone ->
      exists dt x shp,
        placeholder k = Some (dt, x) /\
        schema_dtype k = Ok dt /\
        np_shape sentences = Ok shp /\
        dict_get k out = Some (mk_ndarray dt shp (replicate (size_of shp) x)).
Proof.
  intros Hm Hty Hrun.
  destruct (triton_infer_fn_returns sampling length self kwargs h out Hrun)
    as (m' & strs & lp & sp & mo & Hm' & Hgen & Hfill).
  rewrite Hm in Hm'. injection Hm' as <-.
  destruct (Hty strs lp sp mo Hgen) as [Hnd Hkeys].
  destruct (fill_outputs_get _ _ _ _ Hfill) as (Hk & _ & _ & Hget).
  assert (forall k, k ∈ dict_keys out <-> k ∈ output_schema_keys) as Hout.
  { intros k. rewrite Hk, <- Hkeys. split; [|now right].
    intros [H|H]; [inversion H | exact H]. }
  split; [intros k; apply Hout|]. split; [intros k; apply Hout|].
  assert ("sentences" ∈ dict_keys mo) as Hs.
  { apply Hkeys, (bool_decide_unpack _). vm_compute. exact I. }
  apply dict_get_is_Some in Hs as [sentences Hs].
  exists strs, lp, sp, mo, sentences.
  split; [exact Hgen|]. split; [exact Hs|].
  intros k Hn.
  assert (k ∈ output_schema_keys) as Hin
      by (apply Hkeys, dict_get_is_Some; eauto).
  destruct (placeholder_of_schema_key k Hin) as (dt & x & Hp).
  destruct (field_dtype_of k dt x Hp) as (Hd & _).
  destruct (Hget Hnd k PyNone (dict_get_elem_of _ _ _ Hn)) as (a & Ha & Hka).
  destruct (np_shape sentences) as [shp|e] eqn:Hshp.
  - exists dt, x, shp. split; [exact Hp|]. split; [exact Hd|].
    split; [reflexivity|].
    rewrite (output_tensor_of_None _ _ _ _ _ _ Hp Hs Hshp) in Ha.
    injection Ha as <-. exact Hka.
  - exfalso. unfold output_tensor, dict_item in Ha.
    rewrite Hd in Ha. cbn [rbind is_None] in Ha.
    rewrite Hs in Ha. cbn [of_option rbind] in Ha.
    rewrite Hshp in Ha. discriminate.
Qed.

Lemma response_has_every_schema_key_witness :
  exists out,
    (triton_infer_fn sample_sampling_params sample_length_params
       (loaded sample_model) sample_batch ∅).1 = Ok out /\
    (forall k, k ∈ output_schema_keys -> k ∈ dict_keys out) /\
    dict_get "offsets" out = Some (mk_ndarray np_int_ [1%nat] [SInt 0]).
Proof.
  destruct (triton_infer_fn sample_sampling_params sample_length_params
              (loaded sample_model) sample_batch ∅).1 as [out|e] eqn:Hrun;
    [|vm_compute in Hrun; discriminate].
  exists out. split; [reflexivity|].
  destruct (response_has_every_schema_key sample_sampling_params
              sample_length_params (loaded sample_model) sample_model
              sample_batch ∅ out eq_refl)
    as (Hall & _ & _).
  - intros inputs lp sp mo Hgen. simpl in Hgen. injection Hgen as <-.
    split; [apply (bool_decide_unpack _); vm_compute; exact I|].
    intros k. reflexivity.
  - exact Hrun.
  - split; [exact Hall|].
    vm_compute in Hrun. injection Hrun as <-. reflexivity.
Defined.

(** ** Tensors of reduced precision *)

Lemma rmap_upcast (ts : list torch_tensor) :
  rmap upcast_to_numpy (PyTensor <$> ts)
  = Ok ((fun t => mk_ndarray np_single (t_shape t) (t_data t)) <$> ts).
Proof.
  induction ts as [|t ts IH]; [reflexivity|].
  change (rmap upcast_to_numpy (PyTensor <$> t :: ts))
    with (let? y := upcast_to_numpy (PyTensor t) in
          let? ys := rmap upcast_to_numpy (PyTensor <$> ts) in Ok (y :: ys)).
  now rewrite IH.
Qed.

(** C8: when the elements of a numeric field are torch tensors in bfloat16,
    which numpy cannot hold, every element is turned into a float32 tensor
    before it becomes a numpy array, and the field's array is built from
    those float32 arrays. *)
Theorem bfloat16_elements_are_upcast
    (model_output : dict pyvalue) (field : string) (dt : np_dtype)
    (t : torch_tensor) (ts : list torch_tensor) :
  schema_dtype field = Ok dt ->
  dt <> np_bytes ->
  t_dtype t = torch_bfloat16 ->
  tensor_numpy t = Raise TypeError /\
  (forall t', t' ∈ t :: ts ->
     t_dtype (tensor_float (tensor_cpu t')) = torch_float32 /\
     upcast_to_numpy (PyTensor t')
     = Ok (mk_ndarray np_single (t_shape t') (t_data t'))) /\
  output_tensor model_output field (PyList (PyTensor <$> t :: ts))
  = np_stack ((fun t' => mk_ndarray np_single (t_shape t') (t_data t'))
                <$> t :: ts).
Proof.
  intros Hd Hdt Ht. split; [unfold tensor_numpy; now rewrite Ht|].
  split; [intros t' _; split; reflexivity|].
  unfold output_tensor. rewrite Hd. cbn [rbind is_None].
  destruct (decide (dt = np_bytes)) as [|_]; [contradiction|].
  set (l := PyTensor <$> t :: ts).
  change (py_index0 (PyList l)) with (Ok (A := pyvalue) (PyTensor t)).
  cbn [rbind].
  destruct (decide (t_dtype t = torch_bfloat16)) as [_|Hne]; [|contradiction].
  cbn [py_iter rbind]. subst l. rewrite rmap_upcast. reflexivity.
Qed.

Lemma bfloat16_elements_are_upcast_witness :
  output_tensor [] "logprob" (PyList [PyTensor sample_bf16; PyTensor sample_bf16])
  = Ok (mk_ndarray np_single [2%nat; 2%nat]
          [SFloat (-1 # 2); SFloat (-2); SFloat (-1 # 2); SFloat (-2)]).
Proof.
  destruct (bfloat16_elements_are_upcast [] "logprob" np_single
              sample_bf16 [sample_bf16])
    as (_ & _ & Hout); [reflexivity | discriminate | reflexivity |].
  change (PyList [PyTensor sample_bf16; PyTensor sample_bf16])
    with (PyList (PyTensor <$> [sample_bf16; sample_bf16])).
  rewrite Hout. reflexivity.
Defined.

(** ** Text to byte strings and back *)

Lemma is_scalar_value_spec (c : Z) :
  is_scalar_value c = true <->
  0 <= c < 1114112 /\ (c < 55296 \/ 57343 < c).
Proof.
  unfold is_scalar_value.
  rewrite !andb_true_iff, negb_true_iff, andb_false_iff.
  rewrite !Z.leb_le, !Z.ltb_lt, Z.leb_gt, Z.leb_gt. lia.
Qed.

Ltac decide_bounds :=
  repeat match goal with
         | |- context [?a <=? ?b] =>
             destruct (Z.leb_spec a b); try (Z.div_mod_to_equations; lia)
         | |- context [?a <? ?b] =>
             destruct (Z.ltb_spec a b); try (Z.div_mod_to_equations; lia)
         end.

(** Decoding reads back one encoded code point. *)
Lemma utf8_decode_encode_cp (c : Z) (b rest : pybytes) :
  utf8_encode_cp c = Ok b ->
  utf8_decode (b ++ rest) = let? s := utf8_decode rest in Ok (c :: s).
Proof.
  unfold utf8_encode_cp.
  destruct (is_scalar_value c) eqn:Hc; [|discriminate].
  pose proof Hc as Hv. apply is_scalar_value_spec in Hv.
  cbn [negb].
  destruct (Z.ltb_spec c 128); [|destruct (Z.ltb_spec c 2048);
    [|destruct (Z.ltb_spec c 65536)]]; intros [= <-].
  - cbn [app utf8_decode]. decide_bounds. reflexivity.
  - cbn [app utf8_decode]. unfold is_continuation.
    assert ((192 + c / 64 - 192) * 64 + (128 + c mod 64 - 128) = c) as ->
        by (Z.div_mod_to_equations; lia).
    decide_bounds. reflexivity.
  - cbn [app utf8_decode]. cbv zeta. unfold is_continuation.
    assert ((224 + c / 4096 - 224) * 4096
            + (128 + (c / 64) mod 64 - 128) * 64
            + (128 + c mod 64 - 128) = c) as ->
        by (Z.div_mod_to_equations; lia).
    rewrite Hc. decide_bounds. reflexivity.
  - cbn [app utf8_decode]. cbv zeta. unfold is_continuation.
    assert ((240 + c / 262144 - 240) * 262144
            + (128 + (c / 4096) mod 64 - 128) * 4096
            + (128 + (c / 64) mod 64 - 128) * 64
            + (128 + c mod 64 - 128) = c) as ->
        by (Z.div_mod_to_equations; lia).
    rewrite Hc. decide_bounds. reflexivity.
Qed.

Lemma utf8_encode_cp_returns (c : Z) :
  is_scalar_value c = true -> returns (utf8_encode_cp c).
Proof.
  intros Hc. unfold utf8_encode_cp, returns. rewrite Hc. cbn [negb].
  repeat (destruct (_ <? _); [eauto|]). eauto.
Qed.

(** A native string of scalar values encodes, and decodes back to itself. *)
Lemma utf8_round_trip (s : pystr) :
  Forall (fun c => is_scalar_value c = true) s ->
  exists b,
    utf8_encode s = Ok b /\
    forall rest,
      utf8_decode (b ++ rest) = let? r := utf8_decode rest in Ok (s ++ r).
Proof.
  induction 1 as [|c s Hc _ IH].
  - exists []. split; [reflexivity|]. intros rest. simpl.
    now destruct (utf8_decode rest).
  - destruct IH as (bs & Henc & Hdec).
    destruct (utf8_encode_cp_returns c Hc) as [b Hb].
    exists (b ++ bs). split.
    + cbn [utf8_encode]. rewrite Hb, Henc. reflexivity.
    + intros rest. rewrite <- app_assoc.
      rewrite (utf8_decode_encode_cp c b _ Hb), Hdec.
      now destruct (utf8_decode rest).
Qed.

Lemma utf8_decode_encode (s : pystr) :
  Forall (fun c => is_scalar_value c = true) s ->
  exists b, utf8_encode s = Ok b /\ utf8_decode b = Ok s.
Proof.
  intros Hs. destruct (utf8_round_trip s Hs) as (b & Henc & Hdec).
  exists b. split; [exact Henc|].
  specialize (Hdec []). cbn [utf8_decode rbind] in Hdec.
  rewrite !app_nil_r in Hdec. exact Hdec.
Qed.

Lemma rmap_np_array_strings (ss : list pystr) :
  rmap np_array (PyScalar ∘ SStr <$> ss) = Ok (string_cell <$> ss).
Proof.
  induction ss as [|s ss IH]; [reflexivity|].
  change (rmap np_array (PyScalar ∘ SStr <$> s :: ss))
    with (let? y := np_array (PyStr s) in
          let? ys := rmap np_array (PyScalar ∘ SStr <$> ss) in Ok (y :: ys)).
  now rewrite IH.
Qed.

Lemma string_cells_data (ss : list pystr) :
  mjoin (nd_data <$> (string_cell <$> ss)) = SStr <$> ss.
Proof.
  induction ss as [|s ss IH]; [reflexivity|].
  change (mjoin (nd_data <$> (string_cell <$> s :: ss)))
    with (SStr s :: mjoin (nd_data <$> (string_cell <$> ss))).
  now rewrite IH.
Qed.

Lemma string_cells_dtype (ss : list pystr) :
  foldl dtype_join np_str_ (nd_dtype <$> (string_cell <$> ss)) = np_str_.
Proof. induction ss as [|s ss IH]; [reflexivity|]. exact IH. Qed.

Lemma string_cells_shape (a : ndarray) (ss : list pystr) :
  nd_shape a = [] ->
  forallb (fun b => bool_decide (nd_shape b = nd_shape a)) (string_cell <$> ss)
  = true.
Proof.
  intros Ha. induction ss as [|s ss IH]; [reflexivity|].
  change (forallb (fun b => bool_decide (nd_shape b = nd_shape a))
            (string_cell <$> s :: ss))
    with (bool_decide ([] = nd_shape a)
          && forallb (fun b => bool_decide (nd_shape b = nd_shape a))
               (string_cell <$> ss)).
  rewrite IH, Ha. reflexivity.
Qed.

Lemma rmap_astype_strings (ss : list pystr) :
  rmap (astype_scalar np_str_) (SStr <$> ss) = Ok (SStr <$> ss).
Proof.
  induction ss as [|s ss IH]; [reflexivity|].
  change (rmap (astype_scalar np_str_) (SStr <$> s :: ss))
    with (let? y := Ok (SStr s) in
          let? ys := rmap (astype_scalar np_str_) (SStr <$> ss) in Ok (y :: ys)).
  now rewrite IH.
Qed.

(** [np.array] of a list of native strings that is not empty: one cell per
    string, of element type [str_]. *)
Lemma np_array_of_strings (ss : list pystr) :
  ss <> [] ->
  np_array (PyList (PyScalar ∘ SStr <$> ss))
  = Ok (mk_ndarray np_str_ [length ss] (SStr <$> ss)).
Proof.
  intros Hne.
  change (np_array (PyList (PyScalar ∘ SStr <$> ss)))
    with (let? arrs := rmap np_array (PyScalar ∘ SStr <$> ss) in np_stack arrs).
  rewrite rmap_np_array_strings. cbn [rbind].
  destruct ss as [|s ss]; [contradiction|].
  change (string_cell <$> s :: ss) with (string_cell s :: (string_cell <$> ss)).
  unfold np_stack.
  rewrite string_cells_shape by reflexivity.
  change (nd_dtype (string_cell s)) with np_str_.
  rewrite string_cells_dtype.
  change (string_cell s :: (string_cell <$> ss)) with (string_cell <$> s :: ss).
  rewrite string_cells_data, rmap_astype_strings. cbn [rbind].
  now rewrite length_fmap.
Qed.

Lemma encode_decode_elements (ss : list pystr) :
  Forall (Forall (fun c => is_scalar_value c = true)) ss ->
  exists data,
    rmap encode_element (SStr <$> ss) = Ok data /\
    rmap decode_element data = Ok ss.
Proof.
  induction 1 as [|s ss Hs _ IH].
  - exists []. split; reflexivity.
  - destruct IH as (data & Henc & Hdec).
    destruct (utf8_decode_encode s Hs) as (b & Hb & Hd).
    exists (SBytes b :: data). split.
    + change (rmap encode_element (SStr <$> s :: ss))
        with (let? y := (let? b := utf8_encode s in Ok (SBytes b)) in
              let? ys := rmap encode_element (SStr <$> ss) in Ok (y :: ys)).
      now rewrite Hb, Henc.
    + cbn [rmap decode_element]. now rewrite Hd, Hdec.
Qed.

(** Not every list of native strings round-trips: a native string can hold
    a lone surrogate, a code point that has no byte-string encoding, and the
    cast raises [UnicodeEncodeError]. *)
Lemma lone_surrogate_does_not_round_trip :
  ~ (forall (model_output : dict pyvalue) (field : string) (ss : list pystr),
       schema_dtype field = Ok np_bytes ->
       exists a,
         cast_output (PyList (PyScalar ∘ SStr <$> ss)) np_bytes = Ok a /\
         output_tensor model_output field (PyList (PyScalar ∘ SStr <$> ss))
         = Ok a /\
         nd_dtype a = np_bytes /\
         str_ndarray2list a = Ok ss).
Proof.
  intros H.
  destruct (H [] "sentences" [[55296]] eq_refl) as (a & Hcast & _).
  vm_compute in Hcast. discriminate.
Qed.

(** Nor does the round trip hold of the empty list, whatever its strings
    would be: numpy makes an array of floats of it, which has no text to
    encode, and the cast raises [TypeError]. *)
Lemma empty_list_does_not_round_trip :
  ~ (forall (model_output : dict pyvalue) (field : string) (ss : list pystr),
       schema_dtype field = Ok np_bytes ->
       Forall (Forall (fun c => is_scalar_value c = true)) ss ->
       exists a,
         cast_output (PyList (PyScalar ∘ SStr <$> ss)) np_bytes = Ok a /\
         str_ndarray2list a = Ok ss).
Proof.
  intros H.
  destruct (H [] "sentences" [] eq_refl) as (a & Hcast & _);
    [constructor|].
  vm_compute in Hcast. discriminate.
Qed.

Example lone_surrogate_does_not_encode :
  cast_output (PyList [PyStr [55296]]) np_bytes = Raise UnicodeEncodeError.
Proof. reflexivity. Qed.

Example empty_list_does_not_encode :
  cast_output (PyList []) np_bytes = Raise TypeError.
Proof. reflexivity. Qed.

(** C9, for the strings that have an encoding: a list of native strings that
    is not empty and whose code points are Unicode scalar values (none is a
    lone surrogate), cast to byte strings as the adapter does for a field of
    byte-string type, decodes back to the strings it came from. *)
Theorem byte_string_round_trip
    (model_output : dict pyvalue) (field : string) (ss : list pystr) :
  schema_dtype field = Ok np_bytes ->
  ss <> [] ->
  Forall (Forall (fun c => is_scalar_value c = true)) ss ->
  exists a,
    cast_output (PyList (PyScalar ∘ SStr <$> ss)) np_bytes = Ok a /\
    output_tensor model_output field (PyList (PyScalar ∘ SStr <$> ss)) = Ok a /\
    nd_dtype a = np_bytes /\
    str_ndarray2list a = Ok ss.
Proof.
  intros Hd Hne Hss.
  pose proof (np_array_of_strings ss Hne) as Harr.
  destruct (encode_decode_elements ss Hss) as (data & Henc & Hdec).
  exists (mk_ndarray np_bytes [length ss] data).
  assert (cast_output (PyList (PyScalar ∘ SStr <$> ss)) np_bytes
          = Ok (mk_ndarray np_bytes [length ss] data)) as Hcast.
  { unfold cast_output. rewrite Harr. cbn [rbind nd_data nd_shape nd_dtype].
    destruct (decide (np_bytes = np_bytes)) as [_|Hne']; [|contradiction].
    destruct (decide (np_str_ = np_str_)) as [_|Hne']; [|contradiction].
    now rewrite Henc. }
  split; [exact Hcast|]. split.
  - unfold output_tensor. rewrite Hd. cbn [rbind is_None].
    destruct (decide (np_bytes = np_bytes)) as [_|Hne']; [|contradiction].
    exact Hcast.
  - repeat split. exact Hdec.
Qed.

Lemma byte_string_round_trip_witness :
  exists a,
    cast_output
      (PyList [PyStr (codepoints "Hello"); PyStr [233; 8364; 128512]]) np_bytes
    = Ok a /\
    output_tensor [] "sentences"
      (PyList [PyStr (codepoints "Hello"); PyStr [233; 8364; 128512]]) = Ok a /\
    str_ndarray2list a = Ok [codepoints "Hello"; [233; 8364; 128512]].
Proof.
  destruct (byte_string_round_trip [] "sentences"
              [codepoints "Hello"; [233; 8364; 128512]])
    as (a & Hcast & Hout & _ & Hback).
  - reflexivity.
  - discriminate.
  - repeat constructor.
  - exists a. repeat split; assumption.
Defined.

(** ** Schema derivation *)

(** C5: element-type derivation maps a string to byte-string, a boolean to
    numpy's bool, a float to single precision and an integer to numpy's
    native int; for a non-empty list the type is the one the same mapping
    gives to the list's first element. *)
Theorem GetNumpyDtype_mapping :
  (forall s, GetNumpyDtype (PyStr s) = Ok np_bytes) /\
  (forall b, GetNumpyDtype (PyBool b) = Ok np_bool_) /\
  (forall x, GetNumpyDtype (PyFloat x) = Ok np_single) /\
  (forall n, GetNumpyDtype (PyInt n) = Ok np_int_) /\
  (forall v vs,
     GetNumpyDtype (PyList (v :: vs))
     = mapping_item (type_of v) py_to_numpy_mapping) /\
  (forall s vs, GetNumpyDtype (PyList (PyStr s :: vs)) = Ok np_bytes) /\
  (forall b vs, GetNumpyDtype (PyList (PyBool b :: vs)) = Ok np_bool_) /\
  (forall x vs, GetNumpyDtype (PyList (PyFloat x :: vs)) = Ok np_single) /\
  (forall n vs, GetNumpyDtype (PyList (PyInt n :: vs)) = Ok np_int_).
Proof. repeat split. Qed.

Lemma rmap_raise {A B} (f : A -> pyresult B) (pre post : list A) (x : A)
    (e : pyerror) :
  f x = Raise e ->
  rmap f (pre ++ x :: post) = let? _ := rmap f pre in Raise e.
Proof.
  intros Hx. induction pre as [|y pre IH]; simpl.
  - now rewrite Hx.
  - destruct (f y); simpl; [|reflexivity]. rewrite IH.
    now destruct (rmap f pre).
Qed.

Lemma rmap_ok {A B} (f : A -> pyresult B) (g : A -> B) (P : A -> Prop)
    (l : list A) :
  (forall x, P x -> f x = Ok (g x)) ->
  Forall P l -> rmap f l = Ok (g <$> l).
Proof.
  intros Hf. induction 1 as [|x l Hx _ IH]; simpl; [reflexivity|].
  now rewrite (Hf x Hx), IH.
Qed.

(** C6: element-type derivation of an empty list raises [IndexError], a
    lookup error; nothing catches it, so schema derivation over a default
    dictionary that holds an empty list raises it too, unless an entry before
    it has already raised. *)
Theorem GetNumpyDtype_empty_list :
  GetNumpyDtype (PyList []) = Raise IndexError /\
  is_LookupError IndexError = true /\
  (forall k, parameter_tensor (k, PyList []) = Raise IndexError) /\
  (forall pre k post length,
     get_triton_input (pre ++ (k, PyList []) :: post) length
     = let? _ := rmap parameter_tensor pre in Raise IndexError) /\
  (forall sampling pre k post,
     get_triton_input sampling (pre ++ (k, PyList []) :: post)
     = let? _ := rmap parameter_tensor sampling in
       let? _ := rmap parameter_tensor pre in Raise IndexError).
Proof.
  split; [reflexivity|]. split; [reflexivity|]. split; [reflexivity|]. split.
  - intros pre k post length. unfold get_triton_input.
    rewrite (rmap_raise parameter_tensor pre post (k, PyList []) IndexError)
      by reflexivity.
    now destruct (rmap parameter_tensor pre).
  - intros sampling pre k post. unfold get_triton_input.
    destruct (rmap parameter_tensor sampling); simpl; [|reflexivity].
    rewrite (rmap_raise parameter_tensor pre post (k, PyList []) IndexError)
      by reflexivity.
    now destruct (rmap parameter_tensor pre).
Qed.

(** The derivation does throw for a default dictionary of scalars and string
    lists when one of the lists is empty. *)
Lemma empty_string_list_derivation_raises :
  ~ (forall sampling length : dict pyvalue,
       Forall (fun item => scalar_or_string_list item.2 = true)
         (sampling ++ length) ->
       returns (get_triton_input sampling length)).
Proof.
  intros H.
  destruct (H [("end_strings", PyList [])] []) as [ts Hts].
  - repeat constructor.
  - discriminate Hts.
Qed.

Lemma parameter_tensor_expected (item : string * pyvalue) :
  scalar_or_nonempty_string_list item.2 = true ->
  parameter_tensor item = Ok (expected_tensor item).
Proof.
  destruct item as [k v]. unfold scalar_or_nonempty_string_list. simpl.
  destruct v as [x|l|t|a]; try discriminate.
  - destruct x; try discriminate; reflexivity.
  - destruct l as [|y l]; [discriminate|].
    destruct y as [x| | |]; try discriminate.
    destruct x; try discriminate. reflexivity.
Qed.

(** C4, as the code has it: the input schema is the required
    variable-length [prompts] descriptor, then one optional descriptor per key
    of the default sampling parameters, then one per key of the default length
    parameters, of shape [(1,)] for a scalar and [(-1,)] for a list; the
    derivation does not throw when every default is a [str], [bool], [float]
    or [int], or a list of strings that is not empty. *)
Theorem input_schema_derivation (sampling length : dict pyvalue) :
  Forall (fun item => scalar_or_nonempty_string_list item.2 = true)
    (sampling ++ length) ->
  get_triton_input sampling length
  = Ok (prompts_tensor
          :: (expected_tensor <$> sampling) ++ (expected_tensor <$> length)) /\
  (forall item, item ∈ sampling ++ length ->
     shape (expected_tensor item)
     = if is_py_scalar item.2 then [1] else [-1]).
Proof.
  intros Hall. split.
  - apply Forall_app in Hall as [Hs Hl]. unfold get_triton_input.
    rewrite (rmap_ok _ expected_tensor _ sampling parameter_tensor_expected Hs).
    rewrite (rmap_ok _ expected_tensor _ length parameter_tensor_expected Hl).
    reflexivity.
  - intros [k v] Hin. rewrite Forall_forall in Hall.
    specialize (Hall _ Hin). unfold scalar_or_nonempty_string_list in Hall.
    simpl in *. destruct v as [x|l|t|a]; try discriminate Hall.
    + destruct x; try discriminate Hall; reflexivity.
    + reflexivity.
Qed.

Lemma input_schema_derivation_witness :
  exists ts,
    get_triton_input sample_sampling_params sample_length_params = Ok ts /\
    length ts = 12%nat /\
    ts !! 0%nat = Some prompts_tensor /\
    ts !! 2%nat = Some (mk_Tensor "temperature" [1] np_single true) /\
    ts !! 9%nat = Some (mk_Tensor "end_strings" [-1] np_bytes true).
Proof.
  destruct (input_schema_derivation sample_sampling_params
              sample_length_params) as [Hts _].
  - repeat constructor.
  - eexists. split; [exact Hts|]. repeat split.
Defined.

(** * Further properties of the module *)

(** ** Element-type derivation and the input schema *)

Ltac decide_derivable H :=
  vm_compute in H; try discriminate H; try (eexists; reflexivity);
  try reflexivity.

Lemma GetNumpyDtype_derivable (v : pyvalue) :
  has_numpy_dtype v = true -> returns (GetNumpyDtype v).
Proof.
  intros H. destruct v as [[]|[|[[]| | |] l]|t|a]; decide_derivable H.
Qed.

Lemma GetNumpyDtype_not_derivable (v : pyvalue) :
  has_numpy_dtype v = false -> v <> PyList [] ->
  GetNumpyDtype v = Raise KeyError.
Proof.
  intros H Hne. destruct v as [[]|[|[[]| | |] l]|t|a]; decide_derivable H.
  contradiction.
Qed.

Lemma GetNumpyDtype_outcomes_aux (v : pyvalue) :
  (returns (GetNumpyDtype v) <-> has_numpy_dtype v = true) /\
  (forall e, GetNumpyDtype v = Raise e -> is_LookupError e = true).
Proof.
  destruct (has_numpy_dtype v) eqn:Hv.
  - destruct (GetNumpyDtype_derivable v Hv) as [d Hd]. rewrite Hd.
    split; [split; [reflexivity | intros _; now exists d] | discriminate].
  - split.
    + split; [|discriminate]. intros [d Hd].
      destruct v as [[]|[|[[]| | |] l]|t|a]; vm_compute in Hv, Hd;
        discriminate.
    + intros e He.
      destruct v as [[]|[|[[]| | |] l]|t|a]; vm_compute in Hv, He;
        try discriminate; injection He as <-; reflexivity.
Qed.

(** X1: element-type derivation returns exactly for a [str], [bool], [float]
    or [int] and for a list whose first element is one of these; an empty
    list raises [IndexError], and every other value ([None], bytes, a tensor,
    an array, a list that starts with a list) raises [KeyError]. *)
Theorem GetNumpyDtype_outcomes (v : pyvalue) :
  (returns (GetNumpyDtype v) <-> has_numpy_dtype v = true) /\
  (GetNumpyDtype v = Raise IndexError <-> v = PyList []) /\
  (GetNumpyDtype v = Raise KeyError <->
   has_numpy_dtype v = false /\ v <> PyList []).
Proof.
  destruct (has_numpy_dtype v) eqn:Hv.
  - destruct (GetNumpyDtype_derivable v Hv) as [d Hd]. rewrite Hd.
    split; [split; [reflexivity | intros _; now exists d]|].
    split; [split; [discriminate | intros ->; discriminate Hv]|].
    split; [discriminate | intros [? _]; discriminate].
  - assert (v = PyList [] \/ v <> PyList []) as [->|Hne].
    { destruct v as [x|[|y l]|t|a]; (now left) || (right; discriminate). }
    + split; [split; [intros [d Hd]; discriminate Hd | discriminate]|].
      split; [split; reflexivity|].
      split; [discriminate | intros [_ Hne]; contradiction].
    + rewrite (GetNumpyDtype_not_derivable v Hv Hne).
      split; [split; [intros [d Hd]; discriminate Hd | discriminate]|].
      split; [split; [discriminate | contradiction]|].
      split; [intros _; now split | reflexivity].
Qed.

Lemma GetNumpyDtype_outcomes_witness :
  returns (GetNumpyDtype (PyList [PyInt 3; PyInt 4])) /\
  GetNumpyDtype (PyList [PyList [PyInt 3]]) = Raise KeyError /\
  GetNumpyDtype PyNone = Raise KeyError.
Proof.
  split; [|split].
  - apply (GetNumpyDtype_outcomes (PyList [PyInt 3; PyInt 4])). reflexivity.
  - apply (GetNumpyDtype_outcomes (PyList [PyList [PyInt 3]])).
    split; [reflexivity | discriminate].
  - apply (GetNumpyDtype_outcomes PyNone). split; [reflexivity | discriminate].
Defined.

Lemma rmap_Forall2 {A B} (f : A -> pyresult B) (l : list A) (ys : list B) :
  rmap f l = Ok ys -> Forall2 (fun x y => f x = Ok y) l ys.
Proof.
  revert ys. induction l as [|x l IH]; intros ys H; simpl in H.
  - injection H as <-. constructor.
  - destruct (f x) as [y|] eqn:Hx; [|discriminate]. simpl in H.
    destruct (rmap f l) as [r|]; [|discriminate]. injection H as <-.
    constructor; [assumption | now apply IH].
Qed.

Lemma rmap_returns {A B} (f : A -> pyresult B) (l : list A) :
  returns (rmap f l) <-> Forall (fun x => returns (f x)) l.
Proof.
  induction l as [|x l IH]; simpl.
  - split; [constructor | intros _; now eexists].
  - split.
    + intros [ys H]. destruct (f x) as [y|] eqn:Hx; [|discriminate].
      simpl in H. destruct (rmap f l) as [r|]; [|discriminate].
      constructor; [now exists y | apply IH; now exists r].
    + intros H. apply Forall_cons in H as [[y Hy] Hl].
      apply IH in Hl as [r Hr]. rewrite Hy, Hr. now eexists.
Qed.

Lemma rmap_raises {A B} (f : A -> pyresult B) (l : list A) (e : pyerror) :
  rmap f l = Raise e -> exists x, x ∈ l /\ f x = Raise e.
Proof.
  induction l as [|x l IH]; simpl; [discriminate|].
  destruct (f x) as [y|e'] eqn:Hx; simpl.
  - destruct (rmap f l) as [r|e'']; [discriminate|]. simpl.
    intros [= ->]. destruct IH as (x' & Hin & Hx'); [reflexivity|].
    exists x'. split; [now right | assumption].
  - intros [= ->]. exists x. split; [left | assumption].
Qed.

Lemma parameter_tensor_describes (item : string * pyvalue) (t : Tensor) :
  parameter_tensor item = Ok t -> describes item t.
Proof.
  destruct item as [k v]. unfold parameter_tensor, describes.
  destruct (GetNumpyDtype v) as [d|] eqn:Hv; simpl; [|discriminate].
  intros [= <-]. simpl. auto.
Qed.

Lemma describes_names (items : dict pyvalue) (ts : list Tensor) :
  Forall2 describes items ts -> name <$> ts = dict_keys items.
Proof.
  induction 1 as [|item t items ts (Hn & _) _ IH]; [reflexivity|].
  unfold dict_keys in *. rewrite !fmap_cons, Hn, IH. reflexivity.
Qed.

(** X2: whenever input schema derivation returns, the schema is the
    [prompts] descriptor followed by one optional descriptor per default
    sampling parameter and then one per default length parameter, in the
    order of the dictionaries, each named after its key, shaped by
    [GetTensorShape] and typed by [GetNumpyDtype] of the default value. *)
Theorem get_triton_input_descriptors
    (sampling length : dict pyvalue) (ts : list Tensor) :
  get_triton_input sampling length = Ok ts ->
  exists sp lp,
    ts = prompts_tensor :: sp ++ lp /\
    Forall2 describes sampling sp /\
    Forall2 describes length lp /\
    name <$> ts = "prompts" :: dict_keys sampling ++ dict_keys length /\
    Forall (fun t => optional t = true) (sp ++ lp).
Proof.
  unfold get_triton_input. intros H.
  destruct (rmap parameter_tensor sampling) as [sp|] eqn:Hs; [|discriminate].
  simpl in H.
  destruct (rmap parameter_tensor length) as [lp|] eqn:Hl; [|discriminate].
  injection H as <-.
  apply rmap_Forall2 in Hs, Hl.
  assert (Forall2 describes sampling sp) as Hds.
  { eapply Forall2_impl; [exact Hs|]. apply parameter_tensor_describes. }
  assert (Forall2 describes length lp) as Hdl.
  { eapply Forall2_impl; [exact Hl|]. apply parameter_tensor_describes. }
  exists sp, lp. split; [reflexivity|]. split; [exact Hds|].
  split; [exact Hdl|]. split.
  - rewrite fmap_cons, fmap_app.
    now rewrite (describes_names _ _ Hds), (describes_names _ _ Hdl).
  - apply Forall_app. split.
    + clear -Hds. induction Hds as [|? ? ? ? (_ & _ & _ & Ho)]; now constructor.
    + clear -Hdl. induction Hdl as [|? ? ? ? (_ & _ & _ & Ho)]; now constructor.
Qed.

Lemma get_triton_input_descriptors_witness :
  exists ts,
    get_triton_input sample_sampling_params sample_length_params = Ok ts /\
    name <$> ts
    = "prompts" :: dict_keys sample_sampling_params
        ++ dict_keys sample_length_params.
Proof.
  destruct (get_triton_input sample_sampling_params sample_length_params)
    as [ts|] eqn:Hts; [|vm_compute in Hts; discriminate].
  exists ts. split; [reflexivity|].
  destruct (get_triton_input_descriptors _ _ ts Hts)
    as (sp & lp & _ & _ & _ & Hnames & _).
  exact Hnames.
Defined.

(** X3: input schema derivation returns exactly when the element type of
    every default value can be derived, and when it does not return, the
    exception is a lookup error ([KeyError] or [IndexError]). *)
Theorem get_triton_input_outcomes (sampling length : dict pyvalue) :
  (returns (get_triton_input sampling length) <->
   Forall (fun item => has_numpy_dtype item.2 = true) (sampling ++ length)) /\
  (forall e, get_triton_input sampling length = Raise e ->
             is_LookupError e = true).
Proof.
  assert (forall item : string * pyvalue,
            returns (parameter_tensor item) <-> has_numpy_dtype item.2 = true)
    as Hitem.
  { intros [k v]. simpl. rewrite <- (proj1 (GetNumpyDtype_outcomes_aux v)).
    unfold parameter_tensor. destruct (GetNumpyDtype v) as [d|e].
    - split; intros _; now eexists.
    - split; intros [? H]; discriminate H. }
  assert (forall (item : string * pyvalue) e,
            parameter_tensor item = Raise e -> is_LookupError e = true)
    as Herr.
  { intros [k v] e. unfold parameter_tensor.
    destruct (GetNumpyDtype v) as [d|e'] eqn:Hv; [discriminate|].
    intros [= <-]. apply (proj2 (GetNumpyDtype_outcomes_aux v) e' Hv). }
  split.
  - unfold get_triton_input. rewrite Forall_app.
    rewrite <- !(Forall_iff _ _ _ Hitem), <- !rmap_returns.
    destruct (rmap parameter_tensor sampling) as [sp|]; simpl.
    + destruct (rmap parameter_tensor length) as [lp|]; simpl.
      * split; [intros _; split; now eexists | intros _; now eexists].
      * split; [intros [? H]; discriminate H | intros [_ [? H]]; discriminate H].
    + split; [intros [? H]; discriminate H | intros [[? H] _]; discriminate H].
  - intros e. unfold get_triton_input.
    destruct (rmap parameter_tensor sampling) as [sp|e1] eqn:Hs; simpl.
    + destruct (rmap parameter_tensor length) as [lp|e2] eqn:Hl; simpl;
        [discriminate|].
      intros [= <-]. apply rmap_raises in Hl as (x & _ & Hx). eauto.
    + intros [= <-]. apply rmap_raises in Hs as (x & _ & Hx). eauto.
Qed.

Lemma get_triton_input_outcomes_witness :
  get_triton_input [("stop", PyNone)] sample_length_params = Raise KeyError /\
  is_LookupError KeyError = true /\
  returns (get_triton_input sample_sampling_params sample_length_params).
Proof.
  split; [reflexivity|]. split.
  - apply (proj2 (get_triton_input_outcomes [("stop", PyNone)]
                    sample_length_params) KeyError).
    reflexivity.
  - apply (proj1 (get_triton_input_outcomes sample_sampling_params
                    sample_length_params)).
    repeat constructor.
Defined.

(** ** The output schema and the adapter *)

Ltac solve_elem_of :=
  solve [repeat first [apply list_elem_of_here | apply list_elem_of_further]].

(** X4: the output schema and the adapter agree. The schema has one required
    variable-length descriptor per field of the blank output record, in its
    order, and the element type the adapter derives for a field of a model
    result is the one declared for it; a field the schema does not declare has
    no element type. *)
Theorem output_schema_agrees_with_adapter :
  exists ts,
    get_triton_output = Ok ts /\
    name <$> ts = output_schema_keys /\
    dict_keys _BLANK_OUTPUTTYPE = output_schema_keys /\
    (forall field dt,
       schema_dtype field = Ok dt <-> mk_Tensor field [-1] dt false ∈ ts) /\
    (forall field,
       field ∉ output_schema_keys <-> schema_dtype field = Raise KeyError).
Proof.
  exists [mk_Tensor "sentences" [-1] np_bytes false;
          mk_Tensor "tokens" [-1] np_bytes false;
          mk_Tensor "logprob" [-1] np_single false;
          mk_Tensor "full_logprob" [-1] np_single false;
          mk_Tensor "token_ids" [-1] np_int_ false;
          mk_Tensor "offsets" [-1] np_int_ false].
  split; [reflexivity|]. split; [reflexivity|].
  split; [reflexivity|].
  assert (forall field, field ∉ output_schema_keys ->
                        schema_dtype field = Raise KeyError) as Hout.
  { intros field Hin.
    change (field ∉ dict_keys _BLANK_OUTPUTTYPE) in Hin.
    apply dict_get_None in Hin.
    unfold schema_dtype, blank_of, dict_item. now rewrite Hin. }
  split.
  - intros field dt. split.
    + intros Hd.
      destruct (decide (field ∈ output_schema_keys)) as [Hin|Hin];
        [|rewrite (Hout field Hin) in Hd; discriminate].
      unfold output_schema_keys in Hin.
      repeat (apply elem_of_cons in Hin as [->|Hin];
              [vm_compute in Hd; injection Hd as <-; solve_elem_of|]).
      inversion Hin.
    + intros Hin.
      repeat (apply elem_of_cons in Hin as [[= -> ->]|Hin]; [reflexivity|]).
      inversion Hin.
  - intros field. split; [apply Hout|].
    intros Hd Hin. unfold output_schema_keys in Hin.
    repeat (apply elem_of_cons in Hin as [->|Hin]; [discriminate Hd|]).
    inversion Hin.
Qed.

Lemma output_schema_agrees_with_adapter_witness :
  schema_dtype "logprob" = Ok np_single /\
  schema_dtype "scores" = Raise KeyError.
Proof.
  destruct output_schema_agrees_with_adapter
    as (ts & Hts & _ & _ & Hdecl & Hundecl).
  injection Hts as <-. split.
  - apply Hdecl. solve_elem_of.
  - apply Hundecl. intros Hin.
    repeat (apply elem_of_cons in Hin as [Heq|Hin]; [discriminate Heq|]).
    inversion Hin.
Defined.

(** ** Parameter extraction: outcomes and dependencies *)

(** [[0][0]] on a tensor of two or more dimensions: it returns when the
    tensor has a first row with a first element, and raises [IndexError] when
    it has not. *)
Lemma first_element_error (a : ndarray) (e : pyerror) :
  (2 <= length (nd_shape a))%nat ->
  first_element a = Raise e -> e = IndexError.
Proof.
  unfold first_element, nd_index0.
  destruct (nd_shape a) as [|[|n] [|[|m] s]]; simpl; try congruence; lia.
Qed.

Lemma first_element_returns (a : ndarray) :
  (2 <= length (nd_shape a))%nat ->
  returns (first_element a) <-> is_Some (first_row_first_element a).
Proof.
  intros Hdim. split.
  - unfold first_element, first_row_first_element, nd_index0, returns.
    destruct (nd_shape a) as [|[|n] [|[|m] s]]; simpl in *;
      try (intros [? ?]; discriminate); try lia.
    intros _. eauto.
  - intros [v Hv]. exists v. now apply first_element_of_first_row.
Qed.

(** On a one-dimensional tensor [[0][0]] indexes the first element itself:
    a byte string gives its first byte, a number cannot be indexed, and an
    element that is a python int is not subscriptable. *)
Example first_element_of_bytes_vector :
  first_element (mk_ndarray np_bytes [1%nat] [SBytes (codepoints "abc")])
  = Ok (PyInt 97).
Proof. reflexivity. Qed.

Example first_element_of_float_vector :
  first_element (mk_ndarray np_single [1%nat] [SFloat (7 # 10)])
  = Raise IndexError.
Proof. reflexivity. Qed.

Example first_element_of_object_vector :
  first_element (mk_ndarray np_object [1%nat] [SInt 5]) = Raise TypeError.
Proof. reflexivity. Qed.

Lemma override_all_outcome (ks : list string) :
  forall (d : dict ndarray) (p : dict pyvalue),
    NoDup ks ->
    match override_all d ks p with
    | Ok _ =>
        forall k a, k ∈ ks -> dict_get k d = Some a -> returns (first_element a)
    | Raise e =>
        exists k a, k ∈ ks /\ dict_get k d = Some a /\
                    first_element a = Raise e
    end.
Proof.
  induction ks as [|k ks IH]; intros d p Hnd; simpl.
  - intros k a Hk. inversion Hk.
  - apply NoDup_cons in Hnd as [Hk Hnd].
    assert (forall k', k' ∈ ks ->
              dict_get k' (dict_remove k d) = dict_get k' d) as Hrem.
    { intros k' Hk'. apply dict_get_remove_ne. intros ->. contradiction. }
    destruct (dict_get k d) as [a|] eqn:Hget.
    + destruct (first_element a) as [e0|err] eqn:Hfirst; simpl.
      * specialize (IH (dict_remove k d) (dict_set k e0 p) Hnd).
        destruct (override_all _ ks _) as [r|e].
        -- intros k' a' Hk' Hget'. apply elem_of_cons in Hk' as [->|Hk'].
           ++ rewrite Hget in Hget'. injection Hget' as <-. now exists e0.
           ++ apply (IH k' a' Hk'). now rewrite Hrem.
        -- destruct IH as (k' & a' & Hk' & Hget' & Ha').
           exists k', a'. rewrite Hrem in Hget' by assumption.
           split; [now right | now split].
      * exists k, a. split; [left | now split].
    + specialize (IH d p Hnd).
      destruct (override_all d ks p) as [r|e].
      * intros k' a' Hk' Hget'. apply elem_of_cons in Hk' as [->|Hk'].
        -- congruence.
        -- now apply (IH k' a').
      * destruct IH as (k' & a' & Hk' & Hget' & Ha').
        exists k', a'. split; [now right | now split].
Qed.

(** X5: parameter extraction returns exactly when [[0][0]] returns for every
    tensor of the batch that is stored under a parameter name; when it does
    not return, the exception is the one [[0][0]] raised for such a tensor.
    For a batch whose tensors under parameter names have two or more
    dimensions, it returns exactly when each of them has a first row with a
    first element, and the exception is [IndexError]. *)
Theorem extraction_outcomes (defaults : dict pyvalue) (kwargs : dict ndarray)
    (h : gmap nat (dict ndarray)) :
  NoDup (dict_keys defaults) ->
  (returns (_sampling_params_from_triton_inputs defaults kwargs h).1 <->
   has_first_elements defaults kwargs) /\
  (returns (_length_params_from_triton_inputs defaults kwargs h).1 <->
   has_first_elements defaults kwargs) /\
  (forall e,
     (_sampling_params_from_triton_inputs defaults kwargs h).1 = Raise e ->
     exists k a, k ∈ dict_keys defaults /\ dict_get k kwargs = Some a /\
                 first_element a = Raise e) /\
  ((forall k a, k ∈ dict_keys defaults -> dict_get k kwargs = Some a ->
                (2 <= length (nd_shape a))%nat) ->
   (returns (_sampling_params_from_triton_inputs defaults kwargs h).1 <->
    has_first_rows defaults kwargs) /\
   (forall e,
      (_sampling_params_from_triton_inputs defaults kwargs h).1 = Raise e ->
      e = IndexError)).
Proof.
  intros Hnd.
  destruct (extraction_run defaults kwargs h) as [d' Hrun].
  change (_length_params_from_triton_inputs defaults kwargs h)
    with (_sampling_params_from_triton_inputs defaults kwargs h).
  rewrite Hrun. simpl.
  pose proof (override_all_outcome (dict_keys defaults) kwargs defaults Hnd)
    as Hout.
  fold (extract_params defaults kwargs) in Hout.
  assert (returns (extract_params defaults kwargs) <->
          has_first_elements defaults kwargs) as Hiff.
  { split.
    - intros [r Hr]. rewrite Hr in Hout. exact Hout.
    - intros Hfirst.
      destruct (extract_params_result defaults kwargs Hnd Hfirst)
        as (r & Hr & _). now exists r. }
  split; [exact Hiff|]. split; [exact Hiff|]. split.
  { intros e He. rewrite He in Hout. exact Hout. }
  intros Hdim. split.
  - rewrite Hiff. split.
    + intros Hfirst k a Hk Hget.
      apply first_element_returns; [now apply (Hdim k)|].
      now apply (Hfirst k).
    + apply has_first_rows_elements.
  - intros e He. rewrite He in Hout.
    destruct Hout as (k & a & Hk & Hget & Ha).
    exact (first_element_error a e (Hdim k a Hk Hget) Ha).
Qed.

Lemma extraction_outcomes_witness :
  returns (_sampling_params_from_triton_inputs sample_sampling_params
             sample_batch ∅).1 /\
  (_sampling_params_from_triton_inputs sample_sampling_params
     empty_row_batch ∅).1 = Raise IndexError.
Proof.
  assert (NoDup (dict_keys sample_sampling_params)) as Hnd
      by (apply (bool_decide_unpack _); vm_compute; exact I).
  split.
  - destruct (extraction_outcomes sample_sampling_params sample_batch ∅ Hnd)
      as (Hret & _).
    apply Hret.
    intros k a _ Hget. unfold sample_batch in Hget. simpl in Hget.
    repeat case_decide; simplify_eq; eexists; reflexivity.
  - destruct (_sampling_params_from_triton_inputs sample_sampling_params
                empty_row_batch ∅).1 as [r|e] eqn:Hrun;
      [vm_compute in Hrun; discriminate|].
    destruct (extraction_outcomes sample_sampling_params empty_row_batch ∅ Hnd)
      as (_ & _ & _ & Hdim).
    destruct Hdim as [_ Herr].
    + intros k a _ Hget. unfold empty_row_batch in Hget. simpl in Hget.
      repeat case_decide; simplify_eq; simpl; lia.
    + rewrite (Herr e Hrun). reflexivity.
Defined.

Lemma override_all_ext (ks : list string) :
  forall (d d' : dict ndarray) (p : dict pyvalue),
    NoDup ks ->
    (forall k, k ∈ ks ->
       first_element <$> dict_get k d = first_element <$> dict_get k d') ->
    override_all d ks p = override_all d' ks p.
Proof.
  induction ks as [|k ks IH]; intros d d' p Hnd Hsame; simpl; [reflexivity|].
  apply NoDup_cons in Hnd as [Hk Hnd].
  assert (forall k', k' ∈ ks -> k' <> k) as Hne
      by (intros k' Hk' ->; contradiction).
  pose proof (Hsame k (list_elem_of_here _ _)) as Hhead.
  destruct (dict_get k d) as [a|], (dict_get k d') as [a'|];
    simpl in Hhead; try discriminate.
  - injection Hhead as ->.
    destruct (first_element a') as [e|]; simpl; [|reflexivity].
    apply IH; [assumption|]. intros k' Hk'.
    rewrite !dict_get_remove_ne by auto. apply Hsame. now right.
  - apply IH; [assumption|]. intros k' Hk'. apply Hsame. now right.
Qed.

(** X6: parameter extraction reads nothing of a batch but the first row's
    first element of the tensors stored under parameter names: two batches
    that agree on these give the same outcome, whatever else they hold and
    whatever the store. For a two-dimensional tensor that element is the
    first datum, so the rows of the other requests have no influence. *)
Theorem extraction_reads_first_elements_only
    (defaults : dict pyvalue) (kwargs kwargs' : dict ndarray)
    (h h' : gmap nat (dict ndarray)) :
  NoDup (dict_keys defaults) ->
  (forall k, k ∈ dict_keys defaults ->
     first_element <$> dict_get k kwargs
     = first_element <$> dict_get k kwargs') ->
  (_sampling_params_from_triton_inputs defaults kwargs h).1
  = (_sampling_params_from_triton_inputs defaults kwargs' h').1 /\
  (_length_params_from_triton_inputs defaults kwargs h).1
  = (_length_params_from_triton_inputs defaults kwargs' h').1 /\
  (forall dt b n b' n' x rest rest',
     first_element (mk_ndarray dt [S b; S n] (x :: rest))
     = Ok (PyArray (mk_ndarray dt [] [x])) /\
     first_element (mk_ndarray dt [S b; S n] (x :: rest))
     = first_element (mk_ndarray dt [S b'; S n'] (x :: rest'))).
Proof.
  intros Hnd Hsame.
  destruct (extraction_run defaults kwargs h) as [d1 H1].
  destruct (extraction_run defaults kwargs' h') as [d2 H2].
  change (_length_params_from_triton_inputs defaults)
    with (_sampling_params_from_triton_inputs defaults).
  rewrite H1, H2. simpl.
  pose proof (override_all_ext (dict_keys defaults) kwargs kwargs' defaults
                Hnd Hsame) as Hext.
  split; [exact Hext|]. split; [exact Hext|].
  intros. split; reflexivity.
Qed.

Lemma extraction_reads_first_elements_only_witness :
  (_sampling_params_from_triton_inputs sample_sampling_params sample_batch ∅).1
  = (_sampling_params_from_triton_inputs sample_sampling_params
       [("temperature",
         mk_ndarray np_single [2%nat; 1%nat] [SFloat (7 # 10); SFloat (9 # 10)]);
        ("user", mk_ndarray np_int_ [2%nat; 1%nat] [SInt 1; SInt 2])]
       {[3%nat := sample_batch]}).1.
Proof.
  apply (extraction_reads_first_elements_only sample_sampling_params).
  - apply (bool_decide_unpack _). vm_compute. exact I.
  - intros k Hk. unfold dict_keys, sample_sampling_params in Hk. simpl in Hk.
    repeat (apply elem_of_cons in Hk as [->|Hk]; [reflexivity|]).
    inversion Hk.
Defined.

Lemma override_all_absent (ks : list string) :
  forall (d : dict ndarray) (p : dict pyvalue),
    (forall k, k ∈ ks -> dict_get k d = None) ->
    override_all d ks p = Ok p.
Proof.
  induction ks as [|k ks IH]; intros d p Habs; simpl; [reflexivity|].
  rewrite (Habs k) by left. apply IH. intros k' Hk'. apply Habs. now right.
Qed.

(** X7: a batch that holds no tensor under a parameter name leaves both
    parameter dictionaries as the default providers made them, entry for
    entry and in their order. *)
Theorem extraction_without_overrides
    (sampling length : dict pyvalue) (kwargs : dict ndarray)
    (h : gmap nat (dict ndarray)) :
  (forall k, k ∈ dict_keys sampling ++ dict_keys length ->
             dict_get k kwargs = None) ->
  (_sampling_params_from_triton_inputs sampling kwargs h).1 = Ok sampling /\
  (_length_params_from_triton_inputs length kwargs h).1 = Ok length.
Proof.
  intros Habs.
  destruct (extraction_run sampling kwargs h) as [d1 H1].
  destruct (extraction_run length kwargs h) as [d2 H2].
  change (_length_params_from_triton_inputs length)
    with (_sampling_params_from_triton_inputs length).
  rewrite H1, H2. simpl. unfold extract_params. split.
  - apply override_all_absent. intros k Hk. apply Habs.
    apply elem_of_app. now left.
  - apply override_all_absent. intros k Hk. apply Habs.
    apply elem_of_app. now right.
Qed.

Lemma extraction_without_overrides_witness :
  (_sampling_params_from_triton_inputs sample_sampling_params
     [("prompts", sample_prompts)] ∅).1 = Ok sample_sampling_params /\
  (_length_params_from_triton_inputs sample_length_params
     [("prompts", sample_prompts)] ∅).1 = Ok sample_length_params.
Proof.
  apply extraction_without_overrides.
  intros k Hk. unfold dict_keys, sample_sampling_params, sample_length_params in Hk.
  simpl in Hk.
  repeat (apply elem_of_cons in Hk as [->|Hk]; [reflexivity|]).
  inversion Hk.
Defined.

(** ** The entry point as a whole *)

Lemma marshal_inputs_frame (sampling length : dict pyvalue)
    (h : gmap nat (dict ndarray)) (inputs : nat) :
  forall loc x, loc <> inputs -> h !! loc = Some x ->
                (marshal_inputs sampling length inputs h).2 !! loc = Some x.
Proof.
  intros loc x Hne Hx. unfold marshal_inputs.
  unfold sbind at 1. unfold obj_pop.
  destruct (h !! inputs) as [d|] eqn:Hl; [|exact Hx].
  destruct (dict_get "prompts" d) as [prompts|]; [|exact Hx].
  set (d' := dict_remove "prompts" d). set (h0 := <[inputs := d']> h).
  assert (h0 !! inputs = Some d') as H0 by apply lookup_insert_eq.
  assert (h0 !! loc = Some x) as Hx0
      by (unfold h0; rewrite lookup_insert_ne; auto).
  unfold sbind at 1. unfold lift at 1.
  destruct (str_ndarray2list prompts) as [strs|err]; [|exact Hx0].
  destruct (call_with_kwargs_run sampling h0 inputs d' H0)
    as (h1 & Hrun1 & H1 & Hf1).
  unfold sbind at 1. rewrite Hrun1.
  destruct (extract_params sampling d') as [sp|err]; [|now apply Hf1].
  destruct (call_length_with_kwargs_run length h1 inputs d' H1)
    as (h2 & Hrun2 & H2 & Hf2).
  unfold sbind at 1. rewrite Hrun2.
  destruct (extract_params length d') as [lp|err]; simpl;
    now apply Hf2, Hf1.
Qed.

(** X8: what the entry point returns or raises is a function of the request
    and the instance alone, the composition of decoding the prompts,
    extracting both parameter dictionaries from the rest of the request,
    calling the model and converting its result; and whether it returns or
    raises, every dictionary that existed before the call is left as it was. *)
Theorem triton_infer_fn_result_and_frame
    (sampling length : dict pyvalue) (self : MegatronGPTDeployable)
    (kwargs : dict ndarray) (h : gmap nat (dict ndarray)) :
  (triton_infer_fn sampling length self kwargs h).1
  = infer sampling length self kwargs /\
  (forall loc x,
     h !! loc = Some x ->
     (triton_infer_fn sampling length self kwargs h).2 !! loc = Some x).
Proof.
  split; [apply triton_infer_fn_run|].
  intros loc x Hx.
  assert (loc <> fresh (dom h)) as Hne.
  { intros ->. apply (is_fresh (dom h)), elem_of_dom. eauto. }
  pose proof (marshal_inputs_frame sampling length
                (<[fresh (dom h) := kwargs]> h) (fresh (dom h)) loc x Hne)
    as Hframe.
  rewrite lookup_insert_ne in Hframe by auto. specialize (Hframe Hx).
  unfold triton_infer_fn. unfold sbind at 1. unfold new_dict. cbv zeta.
  unfold sbind at 1.
  destruct (marshal_inputs sampling length (fresh (dom h))
              (<[fresh (dom h) := kwargs]> h)) as [[[[strs sp] lp]|err] h'];
    simpl in Hframe; [|exact Hframe].
  unfold sbind, lift.
  destruct (get_model self) as [m|]; [|exact Hframe].
  destruct (generate m strs lp sp); exact Hframe.
Qed.

Lemma triton_infer_fn_result_and_frame_witness :
  (triton_infer_fn sample_sampling_params sample_length_params unloaded
     empty_row_batch {[0%nat := sample_batch]}).2 !! 0%nat = Some sample_batch.
Proof.
  apply (triton_infer_fn_result_and_frame sample_sampling_params
           sample_length_params unloaded empty_row_batch
           {[0%nat := sample_batch]}).
  reflexivity.
Defined.

(** X9: a request that cannot be marshalled fails before the model is
    looked at: the call raises the same exception for every instance, loaded
    or not, and for every store, and a request without [prompts] raises
    [KeyError]. *)
Theorem unmarshalled_request_fails_before_model
    (sampling length : dict pyvalue) (kwargs : dict ndarray) :
  ~ request_marshals sampling length kwargs ->
  exists e,
    (forall self h,
       (triton_infer_fn sampling length self kwargs h).1 = Raise e) /\
    (dict_get "prompts" kwargs = None -> e = KeyError).
Proof.
  intros Hno.
  assert (forall self h,
            (triton_infer_fn sampling length self kwargs h).1
            = infer sampling length self kwargs) as Hrun
      by (intros; apply triton_infer_fn_run).
  unfold infer, dict_item in Hrun.
  destruct (dict_get "prompts" kwargs) as [prompts|] eqn:Hp; simpl in Hrun.
  - destruct (str_ndarray2list prompts) as [strs|e1] eqn:Hs; simpl in Hrun;
      [|exists e1; split; [exact Hrun | discriminate]].
    destruct (extract_params sampling _) as [sp|e2] eqn:Hsp; simpl in Hrun;
      [|exists e2; split; [exact Hrun | discriminate]].
    destruct (extract_params length _) as [lp|e3] eqn:Hlp; simpl in Hrun;
      [|exists e3; split; [exact Hrun | discriminate]].
    exfalso. apply Hno. exists prompts, strs, sp, lp. auto.
  - exists KeyError. split; [exact Hrun | reflexivity].
Qed.

Lemma unmarshalled_request_fails_before_model_witness :
  (triton_infer_fn sample_sampling_params sample_length_params
     (loaded sample_model) [("temperature", sample_temperature)] ∅).1
  = Raise KeyError.
Proof.
  destruct (unmarshalled_request_fails_before_model sample_sampling_params
              sample_length_params [("temperature", sample_temperature)])
    as (e & Hrun & Hkey).
  - intros (prompts & _ & _ & _ & Hp & _). discriminate Hp.
  - rewrite Hrun. f_equal. apply Hkey. reflexivity.
Defined.

(** ** The loop over the model's result *)

Lemma dict_set_absent {V} (k : string) (v : V) (d : dict V) :
  k ∉ dict_keys d -> dict_set k v d = d ++ [(k, v)].
Proof.
  unfold dict_keys. induction d as [|[k' v'] r IH]; intros Hk; simpl.
  - reflexivity.
  - rewrite fmap_cons in Hk. apply not_elem_of_cons in Hk as [Hne Hk].
    simpl in Hne. destruct (decide (k' = k)) as [->|_]; [contradiction|].
    now rewrite IH.
Qed.

Lemma fill_outputs_rmap (model_output : dict pyvalue)
    (items : list (string * pyvalue)) :
  forall acc : dict ndarray,
    NoDup (dict_keys acc ++ items.*1) ->
    fill_outputs model_output items acc
    = let? r := rmap (output_item model_output) items in Ok (acc ++ r).
Proof.
  induction items as [|[k v] items IH]; intros acc Hnd; simpl.
  - now rewrite app_nil_r.
  - unfold output_item at 1. simpl.
    destruct (output_tensor model_output k v) as [a|e]; simpl; [|reflexivity].
    assert (k ∉ dict_keys acc) as Hk.
    { apply NoDup_app in Hnd as (_ & Hdisj & _). intros Hin.
      apply (Hdisj k Hin). left. }
    rewrite (dict_set_absent k a acc Hk), IH.
    + destruct (rmap (output_item model_output) items); simpl;
        [|reflexivity].
      now rewrite <- app_assoc.
    + unfold dict_keys in *. rewrite fmap_app, <- app_assoc. exact Hnd.
Qed.

Lemma rmap_first_raise {A B} (f : A -> pyresult B) (l : list A)
    (e : pyerror) :
  rmap f l = Raise e ->
  exists pre x post,
    l = pre ++ x :: post /\ returns (rmap f pre) /\ f x = Raise e.
Proof.
  induction l as [|x l IH]; simpl; [discriminate|].
  destruct (f x) as [y|e'] eqn:Hx; simpl.
  - destruct (rmap f l) as [r|e'']; simpl; [discriminate|].
    intros [= ->].
    destruct IH as (pre & x' & post & -> & [r Hpre] & Hraise); [reflexivity|].
    exists (x :: pre), x', post. split; [reflexivity|].
    split; [|exact Hraise]. simpl. rewrite Hx, Hpre. now eexists.
  - intros [= ->]. exists [], x, l. split; [reflexivity|].
    split; [now eexists | exact Hx].
Qed.

Lemma output_item_spec (model_output : dict pyvalue) :
  forall (item : string * pyvalue),
    (forall entry,
       output_item model_output item = Ok entry ->
       entry.1 = item.1 /\
       output_tensor model_output item.1 item.2 = Ok entry.2) /\
    (forall e,
       output_item model_output item = Raise e ->
       output_tensor model_output item.1 item.2 = Raise e).
Proof.
  intros [k v]. unfold output_item. simpl.
  destruct (output_tensor model_output k v) as [a|e']; simpl; split;
    intros ? H; try discriminate; injection H as <-; auto.
Qed.

(** X10: the response is built item by item from the model's result: it has
    one entry per item of the result, under the same key and in the same
    order, each the array the loop body makes of that item; and when the loop
    body raises for some item, the first such exception is what the
    conversion raises and no response is returned. *)
Theorem response_is_built_item_by_item (model_output : dict pyvalue) :
  NoDup (dict_keys model_output) ->
  fill_outputs model_output model_output []
  = rmap (output_item model_output) model_output /\
  (forall out,
     fill_outputs model_output model_output [] = Ok out ->
     dict_keys out = dict_keys model_output /\
     Forall2 (fun item entry =>
                entry.1 = item.1 /\
                output_tensor model_output item.1 item.2 = Ok entry.2)
       model_output out) /\
  (forall e,
     fill_outputs model_output model_output [] = Raise e ->
     exists pre k v post,
       model_output = pre ++ (k, v) :: post /\
       returns (rmap (output_item model_output) pre) /\
       output_tensor model_output k v = Raise e).
Proof.
  intros Hnd.
  assert (fill_outputs model_output model_output []
          = rmap (output_item model_output) model_output) as Heq.
  { rewrite fill_outputs_rmap by exact Hnd.
    now destruct (rmap (output_item model_output) model_output). }
  split; [exact Heq|]. rewrite Heq. clear Heq Hnd.
  pose proof (output_item_spec model_output) as Hf. split.
  - intros out Hout. apply rmap_Forall2 in Hout.
    assert (Forall2 (fun item entry =>
                       entry.1 = item.1 /\
                       output_tensor model_output item.1 item.2 = Ok entry.2)
              model_output out) as Hall.
    { eapply Forall2_impl; [exact Hout|]. intros item entry H.
      now apply Hf. }
    split; [|exact Hall].
    clear -Hall. unfold dict_keys.
    induction Hall as [|item entry l l' [H1 _] _ IH]; [reflexivity|].
    rewrite !fmap_cons, IH, H1. reflexivity.
  - intros e He.
    destruct (rmap_first_raise _ _ _ He) as (pre & [k v] & post & Hl & Hpre & Hx).
    exists pre, k, v, post. split; [exact Hl|]. split; [exact Hpre|].
    now apply Hf in Hx.
Qed.

Lemma response_is_built_item_by_item_witness :
  exists out,
    fill_outputs (sample_output [codepoints "a"])
      (sample_output [codepoints "a"]) [] = Ok out /\
    dict_keys out = dict_keys (sample_output [codepoints "a"]).
Proof.
  destruct (response_is_built_item_by_item (sample_output [codepoints "a"]))
    as (_ & Hok & _).
  - apply (bool_decide_unpack _). vm_compute. exact I.
  - destruct (fill_outputs (sample_output [codepoints "a"])
                (sample_output [codepoints "a"]) []) as [out|e] eqn:Hrun;
      [|vm_compute in Hrun; discriminate].
    exists out. split; [reflexivity|]. now apply Hok.
Defined.

Lemma output_tensor_undeclared (model_output : dict pyvalue) (field : string)
    (value : pyvalue) :
  field ∉ output_schema_keys ->
  output_tensor model_output field value = Raise KeyError.
Proof.
  intros Hin. change (field ∉ dict_keys _BLANK_OUTPUTTYPE) in Hin.
  apply dict_get_None in Hin.
  unfold output_tensor, schema_dtype, blank_of, dict_item. now rewrite Hin.
Qed.

(** X11: a field of the model's result that the blank output record does not
    name makes the loop body raise [KeyError], whatever its value, and a
    result that holds such a field gets no response at all. *)
Theorem undeclared_field_raises (model_output : dict pyvalue) (field : string)
    (value : pyvalue) :
  field ∉ output_schema_keys ->
  output_tensor model_output field value = Raise KeyError /\
  (field ∈ dict_keys model_output ->
   raises (fill_outputs model_output model_output [])) /\
  (forall post,
     fill_outputs ((field, value) :: post) ((field, value) :: post) []
     = Raise KeyError).
Proof.
  intros Hin. split; [now apply output_tensor_undeclared|]. split.
  - intros Hkey.
    destruct (fill_outputs model_output model_output []) as [out|e] eqn:Hrun;
      [|now exists e].
    destruct (fill_outputs_get _ _ _ _ Hrun) as (_ & Hschema & _).
    exfalso. apply Hin. change (field ∈ dict_keys _BLANK_OUTPUTTYPE).
    apply dict_get_is_Some, Hschema, Hkey.
  - intros post. simpl. now rewrite output_tensor_undeclared.
Qed.

Lemma undeclared_field_raises_witness :
  fill_outputs [("scores", PyList [PyFloat 1])] [("scores", PyList [PyFloat 1])] []
  = Raise KeyError.
Proof.
  apply (undeclared_field_raises [] "scores" (PyList [PyFloat 1])).
  intros Hin.
  repeat (apply elem_of_cons in Hin as [Heq|Hin]; [discriminate Heq|]).
  inversion Hin.
Defined.

(** X12: two lookups of the loop body that can fail on a declared field. A
    [None] value needs the result's [sentences] for its shape, and raises
    [KeyError] when the result has no such entry; a value that is an empty
    list raises [IndexError] for a numeric field, whose first element is
    looked at. *)
Theorem declared_field_lookup_failures (model_output : dict pyvalue)
    (field : string) (dt : np_dtype) :
  schema_dtype field = Ok dt ->
  (dict_get "sentences" model_output = None ->
   output_tensor model_output field PyNone = Raise KeyError) /\
  (dt <> np_bytes ->
   output_tensor model_output field (PyList []) = Raise IndexError).
Proof.
  intros Hd. unfold output_tensor, dict_item. rewrite Hd. cbn [rbind is_None].
  split.
  - intros ->. reflexivity.
  - intros Hne. destruct (decide (dt = np_bytes)); [contradiction|].
    reflexivity.
Qed.

Lemma declared_field_lookup_failures_witness :
  output_tensor [("logprob", PyNone)] "logprob" PyNone = Raise KeyError /\
  output_tensor [] "token_ids" (PyList []) = Raise IndexError.
Proof.
  split.
  - apply (declared_field_lookup_failures [("logprob", PyNone)] "logprob"
             np_single); reflexivity.
  - apply (declared_field_lookup_failures [] "token_ids" np_int_);
      [reflexivity | discriminate].
Defined.

(** ** Plain values are passed through *)

Lemma dtype_join_same (d : np_dtype) : dtype_join d d = d.
Proof. unfold dtype_join. now destruct (decide (d = d)). Qed.

Lemma np_stack_uniform (a0 : ndarray) (arrs : list ndarray) (d : np_dtype)
    (s : list nat) :
  Forall (fun a => nd_dtype a = d /\ nd_shape a = s) (a0 :: arrs) ->
  rmap (astype_scalar d) (mjoin (nd_data <$> a0 :: arrs))
  = Ok (mjoin (nd_data <$> a0 :: arrs)) ->
  np_stack (a0 :: arrs)
  = Ok (mk_ndarray d (S (length arrs) :: s) (mjoin (nd_data <$> a0 :: arrs))).
Proof.
  intros Hall Hcast. apply Forall_cons in Hall as [[Hd0 Hs0] Hall].
  unfold np_stack.
  assert (forallb (fun b => bool_decide (nd_shape b = nd_shape a0)) arrs
          = true) as ->.
  { rewrite Hs0. clear -Hall.
    induction Hall as [|a arrs [_ Hs] _ IH]; [reflexivity|].
    simpl. rewrite IH, Hs. now rewrite bool_decide_eq_true_2. }
  assert (foldl dtype_join (nd_dtype a0) (nd_dtype <$> arrs) = d) as ->.
  { rewrite Hd0. clear -Hall.
    induction Hall as [|a arrs [Hd _] _ IH]; [reflexivity|].
    rewrite fmap_cons. cbn [foldl]. now rewrite Hd, dtype_join_same. }
  rewrite Hcast, Hs0. reflexivity.
Qed.

Lemma rmap_astype_floats (qs : list Q) :
  rmap (astype_scalar np_double) (SFloat <$> qs) = Ok (SFloat <$> qs).
Proof.
  induction qs as [|q qs IH]; [reflexivity|].
  rewrite fmap_cons. cbn [rmap astype_scalar rbind]. now rewrite IH.
Qed.

Lemma rmap_np_array_floats (row : list Q) :
  rmap np_array (PyScalar ∘ SFloat <$> row) = Ok (float_cell <$> row).
Proof.
  induction row as [|q row IH]; [reflexivity|].
  rewrite !fmap_cons. cbn [rmap]. rewrite IH. reflexivity.
Qed.

Lemma float_cells_data (row : list Q) :
  mjoin (nd_data <$> (float_cell <$> row)) = SFloat <$> row.
Proof.
  induction row as [|q row IH]; [reflexivity|].
  transitivity ([SFloat q] ++ mjoin (nd_data <$> (float_cell <$> row)));
    [reflexivity|].
  now rewrite IH.
Qed.

Lemma np_array_float_row (row : list Q) :
  np_array (PyList (PyScalar ∘ SFloat <$> row)) = Ok (float_row_array row).
Proof.
  change (np_array (PyList (PyScalar ∘ SFloat <$> row)))
    with (let? arrs := rmap np_array (PyScalar ∘ SFloat <$> row) in
          np_stack arrs).
  rewrite rmap_np_array_floats. cbn [rbind].
  destruct row as [|q row]; [reflexivity|].
  rewrite fmap_cons.
  rewrite (np_stack_uniform (float_cell q) (float_cell <$> row) np_double []).
  - rewrite <- fmap_cons, float_cells_data. unfold float_row_array.
    now rewrite length_fmap.
  - rewrite <- fmap_cons. apply Forall_fmap, Forall_forall. now intros.
  - rewrite <- fmap_cons, float_cells_data. apply rmap_astype_floats.
Qed.

Lemma rmap_np_array_float_rows (rows : list (list Q)) :
  rmap np_array ((fun row => PyList (PyScalar ∘ SFloat <$> row)) <$> rows)
  = Ok (float_row_array <$> rows).
Proof.
  induction rows as [|row rows IH]; [reflexivity|].
  rewrite !fmap_cons. cbn [rmap].
  rewrite np_array_float_row, IH. reflexivity.
Qed.

Lemma float_rows_data (rows : list (list Q)) :
  mjoin (nd_data <$> (float_row_array <$> rows)) = SFloat <$> mjoin rows.
Proof.
  induction rows as [|row rows IH]; [reflexivity|].
  transitivity ((SFloat <$> row)
                  ++ mjoin (nd_data <$> (float_row_array <$> rows)));
    [reflexivity|].
  rewrite IH. change (mjoin (row :: rows)) with (row ++ mjoin rows).
  now rewrite fmap_app.
Qed.

(** X13: a numeric field whose value is a list of rows of python floats is
    handed to [np.array] as it is, without the schema's element type: for
    rows of one length the array holds the floats row after row at numpy's
    double precision, also for [logprob] and [full_logprob], which the schema
    declares as single precision. *)
Theorem float_rows_pass_through (model_output : dict pyvalue) (field : string)
    (dt : np_dtype) (r : list Q) (rs : list (list Q)) (n : nat) :
  schema_dtype field = Ok dt ->
  dt <> np_bytes ->
  Forall (fun row => length row = n) (r :: rs) ->
  output_tensor model_output field (float_rows (r :: rs))
  = Ok (mk_ndarray np_double [S (length rs); n] (SFloat <$> mjoin (r :: rs))) /\
  output_tensor model_output field (float_rows (r :: rs))
  = np_array (float_rows (r :: rs)) /\
  schema_dtype "logprob" = Ok np_single /\
  schema_dtype "full_logprob" = Ok np_single.
Proof.
  intros Hd Hne Hlen.
  assert (np_array (float_rows (r :: rs))
          = Ok (mk_ndarray np_double [S (length rs); n]
                  (SFloat <$> mjoin (r :: rs)))) as Harr.
  { unfold float_rows.
    change (np_array (PyList ((fun row => PyList (PyScalar ∘ SFloat <$> row))
                                <$> r :: rs)))
      with (let? arrs :=
              rmap np_array ((fun row => PyList (PyScalar ∘ SFloat <$> row))
                               <$> r :: rs) in
            np_stack arrs).
    rewrite rmap_np_array_float_rows. cbn [rbind]. rewrite fmap_cons.
    rewrite (np_stack_uniform (float_row_array r) (float_row_array <$> rs)
               np_double [n]).
    - rewrite <- fmap_cons, float_rows_data. now rewrite length_fmap.
    - rewrite <- fmap_cons. apply Forall_fmap.
      eapply Forall_impl; [exact Hlen|]. intros row Hrow. simpl.
      now rewrite Hrow.
    - rewrite <- fmap_cons, float_rows_data. apply rmap_astype_floats. }
  assert (output_tensor model_output field (float_rows (r :: rs))
          = np_array (float_rows (r :: rs))) as Hpass.
  { unfold output_tensor. rewrite Hd. cbn [rbind float_rows is_None].
    destruct (decide (dt = np_bytes)); [contradiction|]. reflexivity. }
  split; [now rewrite Hpass|]. split; [exact Hpass|]. split; reflexivity.
Qed.

Lemma float_rows_pass_through_witness :
  output_tensor [] "logprob"
    (float_rows [[-1 # 2; -2 # 1]; [-3 # 1; -1 # 4]])
  = Ok (mk_ndarray np_double [2%nat; 2%nat]
          [SFloat (-1 # 2); SFloat (-2 # 1); SFloat (-3 # 1); SFloat (-1 # 4)]).
Proof.
  apply (float_rows_pass_through [] "logprob" np_single [-1 # 2; -2 # 1]
           [[-3 # 1; -1 # 4]] 2%nat).
  - reflexivity.
  - discriminate.
  - repeat constructor.
Defined.

(** ** The loader *)

(** X14: what the constructor can yield. An instance it returns records the
    path it was given and has a model exactly when the path exists; that
    model is what [eval] left of the model restored, for the trainer that was
    made for the given devices and nodes, with the checkpoint's configuration
    in which the transformer engine is switched on and the tensor-parallel
    size is the number of devices, whatever the checkpoint said. An exception
    it raises is the one raised by the first call that failed: the test of
    the path or, for a path that exists, the construction of the trainer, the
    reading of the configuration, the restoration or [eval]. *)
Theorem constructor_outcomes
    (path_exists : string -> pyresult bool)
    (new_Trainer : string -> string -> Z -> Z -> pyresult Trainer)
    (restore_config : string -> Trainer -> pyresult model_config)
    (restore_from :
       string -> Trainer -> model_config -> pyresult MegatronGPTModel)
    (eval : MegatronGPTModel -> pyresult MegatronGPTModel)
    (path : string) (num_devices num_nodes : Z) :
  let construct :=
    __init__ path_exists new_Trainer restore_config restore_from eval path
      num_devices num_nodes in
  let custom_config c := mk_config true num_devices (precision c) in
  (forall self,
     construct = Ok self ->
     nemo_checkpoint_filepath self = path /\
     (is_Some (model self) <-> path_exists path = Ok true) /\
     (model self = None <-> path_exists path = Ok false) /\
     (forall m,
        model self = Some m ->
        exists trainer c m0,
          new_Trainer "gpu" "bf16" num_devices num_nodes = Ok trainer /\
          restore_config path trainer = Ok c /\
          restore_from path trainer (custom_config c) = Ok m0 /\
          eval m0 = Ok m)) /\
  (forall e,
     construct = Raise e ->
     path_exists path = Raise e \/
     (path_exists path = Ok true /\
      (new_Trainer "gpu" "bf16" num_devices num_nodes = Raise e \/
       exists trainer,
         new_Trainer "gpu" "bf16" num_devices num_nodes = Ok trainer /\
         (restore_config path trainer = Raise e \/
          exists c,
            restore_config path trainer = Ok c /\
            (restore_from path trainer (custom_config c) = Raise e \/
             exists m0,
               restore_from path trainer (custom_config c) = Ok m0 /\
               eval m0 = Raise e))))).
Proof.
  intros construct custom_config. subst construct custom_config.
  unfold __init__, _load.
  destruct (path_exists path) as [[|]|e0] eqn:Hpath; cbn [rbind].
  - destruct (new_Trainer "gpu" "bf16" num_devices num_nodes)
      as [trainer|e1] eqn:Ht; cbn [rbind].
    + destruct (restore_config path trainer) as [c|e2] eqn:Hc; cbn [rbind].
      * cbn [transformer_engine tensor_model_parallel_size precision].
        destruct (restore_from path trainer _) as [m0|e3] eqn:Hm; cbn [rbind].
        -- destruct (eval m0) as [m|e4] eqn:He; cbn [rbind].
           ++ split; [|discriminate]. intros self [= <-]. simpl.
              split; [reflexivity|]. split; [split; eauto|].
              split; [split; discriminate|].
              intros m' [= <-]. exists trainer, c, m0. auto.
           ++ split; [discriminate|]. intros e [= <-]. right.
              split; [reflexivity|]. right. exists trainer.
              split; [reflexivity|]. right. exists c.
              split; [exact Hc|]. right. exists m0. auto.
        -- split; [discriminate|]. intros e [= <-]. right.
           split; [reflexivity|]. right. exists trainer.
           split; [reflexivity|]. right. exists c. auto.
      * split; [discriminate|]. intros e [= <-]. right.
        split; [reflexivity|]. right. exists trainer. auto.
    + split; [discriminate|]. intros e [= <-]. right. auto.
  - split; [|discriminate]. intros self [= <-]. simpl.
    split; [reflexivity|]. split.
    + split; [intros [? H]; discriminate H | discriminate].
    + split; [split; reflexivity | discriminate].
  - split; [discriminate|]. intros e [= <-]. now left.
Qed.

Lemma constructor_outcomes_witness :
  exists self,
    __init__ (fun _ => Ok true) (fun a p d n => Ok (mk_Trainer a p d n))
      (fun _ _ => Ok (mk_config false 8 "fp32"))
      (fun _ _ c => Ok (mk_model (generate sample_model) c true))
      (fun m => Ok (model_eval m))
      "model.nemo" 2 1 = Ok self /\
    exists m,
      model self = Some m /\ training m = false /\
      cfg m = mk_config true 2 "fp32".
Proof.
  eexists. split; [reflexivity|].
  destruct (constructor_outcomes (fun _ => Ok true)
              (fun a p d n => Ok (mk_Trainer a p d n))
              (fun _ _ => Ok (mk_config false 8 "fp32"))
              (fun _ _ c => Ok (mk_model (generate sample_model) c true))
              (fun m => Ok (model_eval m))
              "model.nemo" 2 1) as [Hok _].
  destruct (Hok _ eq_refl) as (_ & _ & _ & Hm).
  eexists. split; [reflexivity|].
  destruct (Hm _ eq_refl) as (trainer & c & m0 & Ht & Hc & Hm0 & Heq).
  simpl in Hc, Hm0, Heq. simplify_eq. split; reflexivity.
Defined.

(** X15: a request that supplies no parameter reaches the model with the
    defaults: for a loaded instance and a request whose prompts decode and
    which holds no tensor under a parameter name, the entry point calls
    [generate] with the decoded prompts and the two default dictionaries as
    the providers made them, and returns the conversion of its result. *)
Theorem request_without_parameters_uses_defaults
    (sampling length : dict pyvalue) (self : MegatronGPTDeployable)
    (m : MegatronGPTModel) (kwargs : dict ndarray)
    (h : gmap nat (dict ndarray)) (prompts : ndarray)
    (input_strings : list pystr) :
  model self = Some m ->
  dict_get "prompts" kwargs = Some prompts ->
  str_ndarray2list prompts = Ok input_strings ->
  (forall k, k ∈ dict_keys sampling ++ dict_keys length ->
             dict_get k (dict_remove "prompts" kwargs) = None) ->
  (triton_infer_fn sampling length self kwargs h).1
  = let? model_output := generate m input_strings length sampling in
    fill_outputs model_output model_output [].
Proof.
  intros Hm Hp Hs Hrem.
  rewrite triton_infer_fn_run. unfold infer, dict_item, get_model.
  rewrite Hp. cbn [of_option rbind]. rewrite Hs. cbn [rbind].
  unfold extract_params.
  rewrite (override_all_absent (dict_keys sampling))
    by (intros k Hk; apply Hrem, elem_of_app; now left).
  cbn [rbind].
  rewrite (override_all_absent (dict_keys length))
    by (intros k Hk; apply Hrem, elem_of_app; now right).
  cbn [rbind]. rewrite Hm. reflexivity.
Qed.

Lemma request_without_parameters_uses_defaults_witness :
  (triton_infer_fn sample_sampling_params sample_length_params
     (loaded sample_model) [("prompts", sample_prompts)] ∅).1
  = fill_outputs (sample_output [codepoints "Hello"])
      (sample_output [codepoints "Hello"]) [].
Proof.
  apply (request_without_parameters_uses_defaults sample_sampling_params
           sample_length_params (loaded sample_model) sample_model
           [("prompts", sample_prompts)] ∅ sample_prompts
           [codepoints "Hello"]); try reflexivity.
Defined.

(** ** Lists of tensors *)

Lemma rmap_astype_single (data : list scalar) :
  Forall (fun x => is_SFloat x = true) data ->
  rmap (astype_scalar np_single) data = Ok data.
Proof.
  induction 1 as [|x data Hx _ IH]; [reflexivity|].
  cbn [rmap]. rewrite IH. destruct x; try discriminate Hx. reflexivity.
Qed.

Lemma rmap_upcast_arrays (ts : list torch_tensor) :
  rmap upcast_to_numpy (PyTensor <$> ts) = Ok (upcast_array <$> ts).
Proof. apply rmap_upcast. Qed.

Lemma upcast_arrays_data (ts : list torch_tensor) :
  mjoin (nd_data <$> (upcast_array <$> ts)) = mjoin (t_data <$> ts).
Proof.
  induction ts as [|t ts IH]; [reflexivity|].
  transitivity (t_data t ++ mjoin (nd_data <$> (upcast_array <$> ts)));
    [reflexivity|].
  now rewrite IH.
Qed.

(** X16: for a numeric field whose value is a list of bfloat16 tensors of one
    shape, the response holds one single-precision array with the tensors'
    values, tensor after tensor, and one more leading dimension; the element
    type is single precision whatever the schema declares for the field, so
    also for the integer fields. *)
Theorem bfloat16_list_becomes_single_array
    (model_output : dict pyvalue) (field : string) (dt : np_dtype)
    (t : torch_tensor) (ts : list torch_tensor) (s : list nat) :
  schema_dtype field = Ok dt ->
  dt <> np_bytes ->
  t_dtype t = torch_bfloat16 ->
  Forall (fun t' => t_shape t' = s /\
                    Forall (fun x => is_SFloat x = true) (t_data t'))
    (t :: ts) ->
  output_tensor model_output field (PyList (PyTensor <$> t :: ts))
  = Ok (mk_ndarray np_single (S (length ts) :: s)
          (mjoin (t_data <$> t :: ts))).
Proof.
  intros Hd Hdt Ht Hall.
  unfold output_tensor. rewrite Hd. cbn [rbind is_None].
  destruct (decide (dt = np_bytes)) as [|_]; [contradiction|].
  set (l := PyTensor <$> t :: ts).
  change (py_index0 (PyList l)) with (Ok (A := pyvalue) (PyTensor t)).
  cbn [rbind].
  destruct (decide (t_dtype t = torch_bfloat16)) as [_|Hne]; [|contradiction].
  cbn [py_iter rbind]. subst l. rewrite rmap_upcast_arrays. cbn [rbind].
  rewrite fmap_cons.
  rewrite (np_stack_uniform (upcast_array t) (upcast_array <$> ts)
             np_single s).
  - rewrite <- fmap_cons, upcast_arrays_data. now rewrite length_fmap.
  - rewrite <- fmap_cons. apply Forall_fmap.
    eapply Forall_impl; [exact Hall|]. intros t' [Hs _]. now split.
  - rewrite <- fmap_cons, upcast_arrays_data. apply rmap_astype_single.
    clear -Hall. induction Hall as [|t' l [_ Hf] _ IH]; [constructor|].
    change (mjoin (t_data <$> t' :: l))
      with (t_data t' ++ mjoin (t_data <$> l)).
    apply Forall_app. now split.
Qed.

Lemma bfloat16_list_becomes_single_array_witness :
  output_tensor [] "token_ids"
    (PyList [PyTensor sample_bf16; PyTensor sample_bf16])
  = Ok (mk_ndarray np_single [2%nat; 2%nat]
          [SFloat (-1 # 2); SFloat (-2); SFloat (-1 # 2); SFloat (-2)]).
Proof.
  apply (bfloat16_list_becomes_single_array [] "token_ids" np_int_
           sample_bf16 [sample_bf16] [2%nat]).
  - reflexivity.
  - discriminate.
  - reflexivity.
  - repeat constructor.
Defined.

(** X17: whether tensors are upcast is decided by the first element of the
    list alone. When the first tensor is not in bfloat16, no element is
    upcast, and a bfloat16 tensor further down the list reaches the
    conversion to numpy as it is, which raises [TypeError]. *)
Theorem late_bfloat16_is_not_upcast
    (model_output : dict pyvalue) (field : string) (dt : np_dtype)
    (t0 t1 : torch_tensor) (post : list torch_tensor) :
  schema_dtype field = Ok dt ->
  dt <> np_bytes ->
  t_dtype t0 <> torch_bfloat16 ->
  returns (cast_output (PyTensor t0) dt) ->
  t_dtype t1 = torch_bfloat16 ->
  output_tensor model_output field (PyList (PyTensor <$> t0 :: t1 :: post))
  = Raise TypeError.
Proof.
  intros Hd Hdt Ht0 [a0 Ha0] Ht1.
  unfold output_tensor. rewrite Hd. cbn [rbind is_None].
  destruct (decide (dt = np_bytes)) as [|_]; [contradiction|].
  rewrite !fmap_cons.
  cbn [py_index0 rbind].
  destruct (decide (t_dtype t0 = torch_bfloat16)) as [|_]; [contradiction|].
  cbn [py_iter rbind rmap]. rewrite Ha0. cbn [rbind].
  unfold cast_output at 1. cbn [np_array]. unfold tensor_numpy.
  rewrite Ht1. reflexivity.
Qed.

Lemma late_bfloat16_is_not_upcast_witness :
  output_tensor [] "logprob"
    (PyList [PyTensor (mk_tensor torch_float32 [1%nat] [SFloat (1 # 2)]);
             PyTensor sample_bf16])
  = Raise TypeError.
Proof.
  apply (late_bfloat16_is_not_upcast [] "logprob" np_single
           (mk_tensor torch_float32 [1%nat] [SFloat (1 # 2)]) sample_bf16 []).
  - reflexivity.
  - discriminate.
  - discriminate.
  - eexists. reflexivity.
  - reflexivity.
Defined.
